(** * TNM046 Lab 4: the 4x4 transform helpers of [GLprimer.cpp]

    The program keeps a matrix in a [std::array<float, 16>] laid out
    column by column (the element of row [r] and column [c] sits at the
    linear index [c*4+r]) and hands it to the vertex shader with
    [glUniformMatrix4fv(.., GL_FALSE, ..)], where [P * MV * vec4(Position, 1.0)]
    multiplies it with a column vector.

    The helpers are straight-line code over [float].  They are embedded
    once, over an interface [FloatOps] that names the arithmetic the
    source uses, and then read in two interpretations:
    - over the real numbers, where [+], [*], [/], [cos], [sin] and [tan]
      are the exact operations that the [float] ones round (rounding, the
      infinities and NaN are outside this reading);
    - over [option R], where [/] fails on a zero divisor, to follow which
      arithmetic of the source is partial; an undefined value stands
      where [float] has an infinity or a NaN, and a defined one is a
      finite value. *)

From Stdlib Require Import Reals Lra Lia Arith List.
From Stdlib Require Import ZArith Bool.

Set Implicit Arguments.

(** ** The arithmetic the source uses *)

(** One field for each [float] constant and operation that occurs in
    [mat4mult] ... [mat4perspective]. *)
Class FloatOps (F : Type) : Type := {
  f0 : F;                  (* 0.0f *)
  f1 : F;                  (* 1.0f *)
  f2 : F;                  (* 2.0f *)
  fadd : F -> F -> F;      (* x + y *)
  fsub : F -> F -> F;      (* x - y *)
  fmul : F -> F -> F;      (* x * y *)
  fdiv : F -> F -> F;      (* x / y *)
  fneg : F -> F;           (* -x *)
  fcos : F -> F;           (* cos(x) *)
  fsin : F -> F;           (* sin(x) *)
  ftan : F -> F            (* tan(x) *)
}.

Declare Scope float_scope.
Delimit Scope float_scope with flt.
Infix "+" := fadd : float_scope.
Infix "-" := fsub : float_scope.
Infix "*" := fmul : float_scope.
Infix "/" := fdiv : float_scope.
Notation "- x" := (fneg x) : float_scope.

(** ** Data model *)

(** [std::array<float, 16>]: sixteen scalars, field [e]i for index i. *)
Record mat4 (F : Type) : Type := Mat4 {
  e0 : F;  e1 : F;  e2 : F;  e3 : F;
  e4 : F;  e5 : F;  e6 : F;  e7 : F;
  e8 : F;  e9 : F;  e10 : F; e11 : F;
  e12 : F; e13 : F; e14 : F; e15 : F
}.

(** [vec4] of the shader: a homogeneous point or a clip-space position. *)
Record vec4 (F : Type) : Type := Vec4 { vx : F; vy : F; vz : F; vw : F }.

(** [m[i]].  The source only ever indexes with the constants 0..15; an
    index past the array has no meaning in C++ and reads the last
    element here, which no statement below relies on. *)
Definition get {F : Type} (m : mat4 F) (i : nat) : F :=
  match i with
  | 0 => e0 m   | 1 => e1 m   | 2 => e2 m    | 3 => e3 m
  | 4 => e4 m   | 5 => e5 m   | 6 => e6 m    | 7 => e7 m
  | 8 => e8 m   | 9 => e9 m   | 10 => e10 m  | 11 => e11 m
  | 12 => e12 m | 13 => e13 m | 14 => e14 m  | _ => e15 m
  end.

Notation "m .[ i ]" := (get m i) (at level 1, left associativity, format "m .[ i ]").

(** The sixteen elements in memory order, as [data()] exposes them. *)
Definition data {F : Type} (m : mat4 F) : list F :=
  (e0 m :: e1 m :: e2 m :: e3 m :: e4 m :: e5 m :: e6 m :: e7 m ::
   e8 m :: e9 m :: e10 m :: e11 m :: e12 m :: e13 m :: e14 m :: e15 m :: nil)%list.

(** The element of row [r], column [c]. *)
Definition entry {F : Type} (m : mat4 F) (r c : nat) : F := m.[c * 4 + r].

(** [f 0 + f 1 + ... + f n], added from the left as the source writes its
    sums. *)
Fixpoint sum_upto {F : Type} `{FloatOps F} (f : nat -> F) (n : nat) : F :=
  match n with
  | O => f O
  | S p => (sum_upto f p + f n)%flt
  end.

(** ** The matrix helpers of [GLprimer.cpp] *)

Section Helpers.
Context {F : Type} `{FloatOps F}.
Local Open Scope float_scope.

(** Each helper declares [result], assigns [result[0]] ... [result[15]]
    once each and returns it; the record below lists the sixteen
    right-hand sides in that order. *)

Definition mat4mult (m1 m2 : mat4 F) : mat4 F :=
  {| e0 := m1.[0] * m2.[0] + m1.[4] * m2.[1] + m1.[8] * m2.[2] + m1.[12] * m2.[3];
     e1 := m1.[1] * m2.[0] + m1.[5] * m2.[1] + m1.[9] * m2.[2] + m1.[13] * m2.[3];
     e2 := m1.[2] * m2.[0] + m1.[6] * m2.[1] + m1.[10] * m2.[2] + m1.[14] * m2.[3];
     e3 := m1.[3] * m2.[0] + m1.[7] * m2.[1] + m1.[11] * m2.[2] + m1.[15] * m2.[3];

     e4 := m1.[0] * m2.[4] + m1.[4] * m2.[5] + m1.[8] * m2.[6] + m1.[12] * m2.[7];
     e5 := m1.[1] * m2.[4] + m1.[5] * m2.[5] + m1.[9] * m2.[6] + m1.[13] * m2.[7];
     e6 := m1.[2] * m2.[4] + m1.[6] * m2.[5] + m1.[10] * m2.[6] + m1.[14] * m2.[7];
     e7 := m1.[3] * m2.[4] + m1.[7] * m2.[5] + m1.[11] * m2.[6] + m1.[15] * m2.[7];

     e8 := m1.[0] * m2.[8] + m1.[4] * m2.[9] + m1.[8] * m2.[10] + m1.[12] * m2.[11];
     e9 := m1.[1] * m2.[8] + m1.[5] * m2.[9] + m1.[9] * m2.[10] + m1.[13] * m2.[11];
     e10 := m1.[2] * m2.[8] + m1.[6] * m2.[9] + m1.[10] * m2.[10] + m1.[14] * m2.[11];
     e11 := m1.[3] * m2.[8] + m1.[7] * m2.[9] + m1.[11] * m2.[10] + m1.[15] * m2.[11];

     e12 := m1.[0] * m2.[12] + m1.[4] * m2.[13] + m1.[8] * m2.[14] + m1.[12] * m2.[15];
     e13 := m1.[1] * m2.[12] + m1.[5] * m2.[13] + m1.[9] * m2.[14] + m1.[13] * m2.[15];
     e14 := m1.[2] * m2.[12] + m1.[6] * m2.[13] + m1.[10] * m2.[14] + m1.[14] * m2.[15];
     e15 := m1.[3] * m2.[12] + m1.[7] * m2.[13] + m1.[11] * m2.[14] + m1.[15] * m2.[15] |}.

Definition mat4identity : mat4 F :=
  {| e0 := f1;  e1 := f0;  e2 := f0;  e3 := f0;
     e4 := f0;  e5 := f1;  e6 := f0;  e7 := f0;
     e8 := f0;  e9 := f0;  e10 := f1; e11 := f0;
     e12 := f0; e13 := f0; e14 := f0; e15 := f1 |}.

Definition mat4rotx (angle : F) : mat4 F :=
  {| e0 := f1;  e1 := f0;             e2 := f0;          e3 := f0;
     e4 := f0;  e5 := fcos angle;     e6 := fsin angle;  e7 := f0;
     e8 := f0;  e9 := - fsin angle;   e10 := fcos angle; e11 := f0;
     e12 := f0; e13 := f0;            e14 := f0;         e15 := f1 |}.

Definition mat4roty (angle : F) : mat4 F :=
  {| e0 := fcos angle; e1 := f0;  e2 := - fsin angle; e3 := f0;
     e4 := f0;         e5 := f1;  e6 := f0;           e7 := f0;
     e8 := fsin angle; e9 := f0;  e10 := fcos angle;  e11 := f0;
     e12 := f0;        e13 := f0; e14 := f0;          e15 := f1 |}.

Definition mat4rotz (angle : F) : mat4 F :=
  {| e0 := fcos angle;   e1 := fsin angle; e2 := f0;  e3 := f0;
     e4 := - fsin angle; e5 := fcos angle; e6 := f0;  e7 := f0;
     e8 := f0;           e9 := f0;         e10 := f1; e11 := f0;
     e12 := f0;          e13 := f0;        e14 := f0; e15 := f1 |}.

Definition mat4scale (scale : F) : mat4 F :=
  {| e0 := scale; e1 := f0;    e2 := f0;     e3 := f0;
     e4 := f0;    e5 := scale; e6 := f0;     e7 := f0;
     e8 := f0;    e9 := f0;    e10 := scale; e11 := f0;
     e12 := f0;   e13 := f0;   e14 := f0;    e15 := f1 |}.

Definition mat4translate (x y z : F) : mat4 F :=
  {| e0 := f1;  e1 := f0;  e2 := f0;  e3 := f0;
     e4 := f0;  e5 := f1;  e6 := f0;  e7 := f0;
     e8 := f0;  e9 := f0;  e10 := f1; e11 := f0;
     e12 := x;  e13 := y;  e14 := z;  e15 := f1 |}.

Definition mat4perspective (vfov aspect znear zfar : F) : mat4 F :=
  let f := f1 / ftan (vfov / f2) in
  {| e0 := f / aspect; e1 := f0; e2 := f0; e3 := f0;
     e4 := f0;         e5 := f;  e6 := f0; e7 := f0;
     e8 := f0;  e9 := f0;
     e10 := (- (zfar + znear)) / (zfar - znear);
     e11 := - f1;
     e12 := f0; e13 := f0;
     e14 := (- (f2 * zfar * znear)) / (zfar - znear);
     e15 := f0 |}.

(** ** The shader's use of a matrix *)

(** [M * v] of GLSL for a [mat4] uploaded without transposition: row [r]
    of the result is the sum over the columns [k] of [M[k*4+r] * v[k]]. *)
Definition mat4apply (m : mat4 F) (v : vec4 F) : vec4 F :=
  {| vx := m.[0] * vx v + m.[4] * vy v + m.[8] * vz v + m.[12] * vw v;
     vy := m.[1] * vx v + m.[5] * vy v + m.[9] * vz v + m.[13] * vw v;
     vz := m.[2] * vx v + m.[6] * vy v + m.[10] * vz v + m.[14] * vw v;
     vw := m.[3] * vx v + m.[7] * vy v + m.[11] * vz v + m.[15] * vw v |}.

(** The depth the rasteriser derives from a clip-space position: the
    perspective divide of [z] by [w]. *)
Definition ndc_depth (clip : vec4 F) : F := vz clip / vw clip.

(** ** The parts of a homogeneous transform *)

(** The upper-left 3x3 block, column by column. *)
Definition linear_part (m : mat4 F) : list F :=
  m.[0] :: m.[1] :: m.[2] :: m.[4] :: m.[5] :: m.[6] :: m.[8] :: m.[9] :: m.[10] :: nil.

(** The first three elements of the last column. *)
Definition translation_column (m : mat4 F) : list F :=
  m.[12] :: m.[13] :: m.[14] :: nil.

(** The last row: the elements at the linear indices 3, 7, 11 and 15. *)
Definition bottom_row (m : mat4 F) : list F :=
  m.[3] :: m.[7] :: m.[11] :: m.[15] :: nil.

(** The bottom row of an affine transform. *)
Definition affine_row : list F := f0 :: f0 :: f0 :: f1 :: nil.

End Helpers.

(** ** Interpretations *)

(** The exact reading: every [float] operation is the real operation it
    rounds. *)
#[export] Instance R_ops : FloatOps R := {|
  f0 := 0%R; f1 := 1%R; f2 := 2%R;
  fadd := Rplus; fsub := Rminus; fmul := Rmult; fdiv := Rdiv; fneg := Ropp;
  fcos := cos; fsin := sin; ftan := tan |}.

(** The checked reading: a value is [Some x], or [None] once a division
    by zero fed into it.  [/] is the one operator of the source that C++
    leaves undefined for some operand (a zero divisor); the calls to
    [cos], [sin] and [tan] and the other operators are defined for every
    argument. *)
Definition lift1 (op : R -> R) (x : option R) : option R :=
  match x with Some a => Some (op a) | None => None end.

Definition lift2 (op : R -> R -> R) (x y : option R) : option R :=
  match x, y with Some a, Some b => Some (op a b) | _, _ => None end.

Definition checked_div (x y : option R) : option R :=
  match x, y with
  | Some a, Some b => if Req_dec_T b 0 then None else Some (a / b)%R
  | _, _ => None
  end.

#[export] Instance checked_ops : FloatOps (option R) := {|
  f0 := Some 0%R; f1 := Some 1%R; f2 := Some 2%R;
  fadd := lift2 Rplus; fsub := lift2 Rminus; fmul := lift2 Rmult;
  fdiv := checked_div; fneg := lift1 Ropp;
  fcos := lift1 cos; fsin := lift1 sin; ftan := lift1 tan |}.

(** A matrix of defined values, seen in the checked reading. *)
Definition mat4_some (m : mat4 R) : mat4 (option R) :=
  {| e0 := Some (e0 m);   e1 := Some (e1 m);   e2 := Some (e2 m);   e3 := Some (e3 m);
     e4 := Some (e4 m);   e5 := Some (e5 m);   e6 := Some (e6 m);   e7 := Some (e7 m);
     e8 := Some (e8 m);   e9 := Some (e9 m);   e10 := Some (e10 m); e11 := Some (e11 m);
     e12 := Some (e12 m); e13 := Some (e13 m); e14 := Some (e14 m); e15 := Some (e15 m) |}.

(** No element of the matrix went through a division by zero. *)
Definition all_defined (m : mat4 (option R)) : Prop :=
  forall i : nat, m.[i] <> None.

(** ** The rest of the shader and of the render loop *)

(** The perspective divide of the other two clip coordinates. *)
Definition ndc_x {F : Type} `{FloatOps F} (clip : vec4 F) : F := (vx clip / vw clip)%flt.
Definition ndc_y {F : Type} `{FloatOps F} (clip : vec4 F) : F := (vy clip / vw clip)%flt.

(** The clip volume of OpenGL: a clip-space position survives clipping
    when each of x, y and z lies between [-w] and [w]. *)
Definition in_clip_volume (c : vec4 R) : Prop :=
  (- vw c <= vx c <= vw c)%R /\ (- vw c <= vy c <= vw c)%R /\ (- vw c <= vz c <= vw c)%R.

(** The scalar product of the x, y, z parts of two homogeneous vectors. *)
Definition dot_xyz (u v : vec4 R) : R := (vx u * vx v + vy u * vy v + vz u * vz v)%R.

(** [vec3] and [vec2] of the shader. *)
Record vec3 : Type := Vec3 { x3 : R; y3 : R; z3 : R }.
Record vec2 : Type := Vec2 { s2 : R; t2 : R }.

(** [mat3(m) * v] of GLSL: the upper-left 3x3 block of [m], applied to
    [v]. *)
Definition mat3_mul (m : mat4 R) (v : vec3) : vec3 :=
  {| x3 := m.[0] * x3 v + m.[4] * y3 v + m.[8] * z3 v;
     y3 := m.[1] * x3 v + m.[5] * y3 v + m.[9] * z3 v;
     z3 := m.[2] * x3 v + m.[6] * y3 v + m.[10] * z3 v |}%R.

(** [length(v)] and [normalize(v) = v / length(v)] of GLSL. *)
Definition length3 (v : vec3) : R := sqrt (x3 v * x3 v + y3 v * y3 v + z3 v * z3 v).

Definition normalize (v : vec3) : vec3 :=
  {| x3 := x3 v / length3 v; y3 := y3 v / length3 v; z3 := z3 v / length3 v |}%R.

(** The interface of [vertex.glsl]: its uniforms, the attributes of one
    vertex, and what [main] writes. *)
Record vs_uniforms : Type := VsUniforms {
  utime : R;         (* uniform float time *)
  uR : mat4 R;       (* uniform mat4 R *)
  uMV : mat4 R;      (* uniform mat4 MV *)
  uP : mat4 R        (* uniform mat4 P *)
}.

Record vs_inputs : Type := VsInputs {
  Position : vec3;   (* layout(location = 0) *)
  Normal : vec3;     (* layout(location = 1) *)
  TexCoord : vec2    (* layout(location = 2) *)
}.

Record vs_outputs : Type := VsOutputs {
  interpolatedNormal : vec3;
  st : vec2;
  lightDirection : vec3;
  gl_Position : vec4 R
}.

(** [main] of [vertex.glsl].  [P * MV * vec4(Position, 1.0)] groups as
    [(P * MV) * vec4(..)]; the product of two [mat4] in GLSL is the
    column-major matrix product, which is what [mat4mult] computes. *)
Definition vertex_main (u : vs_uniforms) (a : vs_inputs) : vs_outputs :=
  let transformedNormal := mat3_mul (uMV u) (Normal a) in
  {| interpolatedNormal := normalize transformedNormal;
     lightDirection := mat3_mul (uR u) (Vec3 1 (8 / 10) 1);
     gl_Position :=
       mat4apply (mat4mult (uP u) (uMV u))
                 (Vec4 (x3 (Position a)) (y3 (Position a)) (z3 (Position a)) 1%R);
     st := TexCoord a |}.

(** The uniforms that one pass of the render loop of [main] uploads at
    [time] seconds: [R] stays the identity, [P] is the perspective
    matrix and [MV] is [spin], the rotation about x by [time * M_PI / 2]. *)
Definition frame_uniforms (time : R) : vs_uniforms :=
  {| utime := time;
     uR := mat4identity;
     uMV := mat4rotx (time * PI / 2)%R;
     uP := mat4perspective (PI / 2)%R 1%R (1 / 10)%R 100%R |}.

(** ** The buffer helpers and the OpenGL objects they touch *)

(** [createVertexBuffer] and [createIndexBuffer] only call OpenGL.  The
    part of the context that these calls read or write is kept as a
    record; each call is a function on it, after the OpenGL 3.3 core
    specification: a call that raises an error records it in the error
    flag, unless one is pending already, and does nothing else. *)

Inductive gl_error : Type := GL_INVALID_VALUE | GL_INVALID_OPERATION.

Inductive buffer_target : Type := GL_ARRAY_BUFFER | GL_ELEMENT_ARRAY_BUFFER.

(** The memory a [std::vector] hands to [glBufferData]: its elements,
    four bytes each ([float], or [unsigned int]). *)
Inductive buffer_data : Type :=
  | FloatData (values : list R)
  | UIntData (values : list Z).

(** The enumerant [GL_BGRA], 0x80E1. *)
Definition GL_BGRA : Z := 32993.

Definition sizeof_float : Z := 4.
Definition sizeof_unsigned_int : Z := 4.

(** One generic vertex attribute of a vertex array object: what
    [glVertexAttribPointer] and [glEnableVertexAttribArray] set.  The
    component type is [GL_FLOAT] throughout. *)
Record vertex_attrib : Type := VertexAttrib {
  attrib_enabled : bool;
  attrib_size : Z;
  attrib_normalized : bool;
  attrib_stride : Z;
  attrib_pointer : Z;
  attrib_buffer : Z
}.

Record gl_state : Type := GlState {
  buffer_names : list Z;                   (* names glGenBuffers has returned *)
  vertex_array_names : list Z;             (* names glGenVertexArrays has returned *)
  buffer_store : Z -> option buffer_data;  (* the data store of a buffer object *)
  array_buffer_binding : Z;                (* GL_ARRAY_BUFFER_BINDING *)
  vertex_array_binding : Z;                (* GL_VERTEX_ARRAY_BINDING, 0: none *)
  element_array_buffer_binding : Z -> Z;   (* per vertex array object *)
  vertex_attribs : Z -> Z -> vertex_attrib; (* per vertex array object and index *)
  error_flag : option gl_error             (* what glGetError would report *)
}.

Definition upd {A : Type} (f : Z -> A) (k : Z) (v : A) : Z -> A :=
  fun j => if Z.eqb j k then v else f j.

Definition record_error (e : gl_error) (st : gl_state) : gl_state :=
  {| buffer_names := buffer_names st;
     vertex_array_names := vertex_array_names st;
     buffer_store := buffer_store st;
     array_buffer_binding := array_buffer_binding st;
     vertex_array_binding := vertex_array_binding st;
     element_array_buffer_binding := element_array_buffer_binding st;
     vertex_attribs := vertex_attribs st;
     error_flag := match error_flag st with Some e0 => Some e0 | None => Some e end |}.

Definition is_name (n : Z) (names : list Z) : bool := existsb (Z.eqb n) names.

(** A C [int] passed where OpenGL takes a [GLuint]. *)
Definition to_GLuint (i : Z) : Z := (i mod 2 ^ 32)%Z.

(** The first [size] bytes of the client memory [data]. *)
Definition first_bytes (size : Z) (data : buffer_data) : buffer_data :=
  match data with
  | FloatData l => FloatData (firstn (Z.to_nat (size / sizeof_float)) l)
  | UIntData l => UIntData (firstn (Z.to_nat (size / sizeof_unsigned_int)) l)
  end.

(** A fresh context: no names handed out, no data stores, nothing
    bound, every attribute disabled with the initial format, no error. *)
Definition gl_initial_state : gl_state :=
  {| buffer_names := nil;
     vertex_array_names := nil;
     buffer_store := fun _ => None;
     array_buffer_binding := 0;
     vertex_array_binding := 0;
     element_array_buffer_binding := fun _ => 0%Z;
     vertex_attribs := fun _ _ =>
       {| attrib_enabled := false; attrib_size := 4; attrib_normalized := false;
          attrib_stride := 0; attrib_pointer := 0; attrib_buffer := 0 |};
     error_flag := None |}.

Section GL.
(** The implementation constant [GL_MAX_VERTEX_ATTRIBS]. *)
Variable GL_MAX_VERTEX_ATTRIBS : Z.

(** [glGenBuffers(1, &name)]: [name] is what the driver hands out. *)
Definition glGenBuffers (name : Z) (st : gl_state) : gl_state :=
  {| buffer_names := name :: buffer_names st;
     vertex_array_names := vertex_array_names st;
     buffer_store := buffer_store st;
     array_buffer_binding := array_buffer_binding st;
     vertex_array_binding := vertex_array_binding st;
     element_array_buffer_binding := element_array_buffer_binding st;
     vertex_attribs := vertex_attribs st;
     error_flag := error_flag st |}.

(** [glGenVertexArrays(1, &name)]. *)
Definition glGenVertexArrays (name : Z) (st : gl_state) : gl_state :=
  {| buffer_names := buffer_names st;
     vertex_array_names := name :: vertex_array_names st;
     buffer_store := buffer_store st;
     array_buffer_binding := array_buffer_binding st;
     vertex_array_binding := vertex_array_binding st;
     element_array_buffer_binding := element_array_buffer_binding st;
     vertex_attribs := vertex_attribs st;
     error_flag := error_flag st |}.

(** [glBindVertexArray(array)]. *)
Definition glBindVertexArray (array : Z) (st : gl_state) : gl_state :=
  if negb (Z.eqb array 0) && negb (is_name array (vertex_array_names st))
  then record_error GL_INVALID_OPERATION st
  else
    {| buffer_names := buffer_names st;
       vertex_array_names := vertex_array_names st;
       buffer_store := buffer_store st;
       array_buffer_binding := array_buffer_binding st;
       vertex_array_binding := array;
       element_array_buffer_binding := element_array_buffer_binding st;
       vertex_attribs := vertex_attribs st;
       error_flag := error_flag st |}.

(** [glBindBuffer(target, buffer)].  The array binding belongs to the
    context, the element array binding to the bound vertex array
    object. *)
Definition glBindBuffer (target : buffer_target) (buffer : Z) (st : gl_state) : gl_state :=
  if negb (Z.eqb buffer 0) && negb (is_name buffer (buffer_names st))
  then record_error GL_INVALID_OPERATION st
  else
    match target with
    | GL_ARRAY_BUFFER =>
        {| buffer_names := buffer_names st;
           vertex_array_names := vertex_array_names st;
           buffer_store := buffer_store st;
           array_buffer_binding := buffer;
           vertex_array_binding := vertex_array_binding st;
           element_array_buffer_binding := element_array_buffer_binding st;
           vertex_attribs := vertex_attribs st;
           error_flag := error_flag st |}
    | GL_ELEMENT_ARRAY_BUFFER =>
        {| buffer_names := buffer_names st;
           vertex_array_names := vertex_array_names st;
           buffer_store := buffer_store st;
           array_buffer_binding := array_buffer_binding st;
           vertex_array_binding := vertex_array_binding st;
           element_array_buffer_binding :=
             upd (element_array_buffer_binding st) (vertex_array_binding st) buffer;
           vertex_attribs := vertex_attribs st;
           error_flag := error_flag st |}
    end.

Definition bound_buffer (target : buffer_target) (st : gl_state) : Z :=
  match target with
  | GL_ARRAY_BUFFER => array_buffer_binding st
  | GL_ELEMENT_ARRAY_BUFFER => element_array_buffer_binding st (vertex_array_binding st)
  end.

(** [glBufferData(target, size, data, GL_STATIC_DRAW)]: a new data store
    for the buffer bound to [target], holding [size] bytes copied from
    [data]. *)
Definition glBufferData (target : buffer_target) (size : Z) (data : buffer_data)
    (st : gl_state) : gl_state :=
  if Z.eqb (bound_buffer target st) 0 then record_error GL_INVALID_OPERATION st
  else if Z.ltb size 0 then record_error GL_INVALID_VALUE st
  else
    {| buffer_names := buffer_names st;
       vertex_array_names := vertex_array_names st;
       buffer_store := upd (buffer_store st) (bound_buffer target st) (Some (first_bytes size data));
       array_buffer_binding := array_buffer_binding st;
       vertex_array_binding := vertex_array_binding st;
       element_array_buffer_binding := element_array_buffer_binding st;
       vertex_attribs := vertex_attribs st;
       error_flag := error_flag st |}.

(** [glVertexAttribPointer(index, size, GL_FLOAT, normalized, stride,
    pointer)]: the attribute [index] of the bound vertex array object
    takes the format and the buffer bound to [GL_ARRAY_BUFFER].  A
    [size] is 1, 2, 3, 4 or [GL_BGRA]; [GL_BGRA] goes with packed and
    byte types only, so with [GL_FLOAT] it is an invalid operation, and
    any other [size] is an invalid value. *)
Definition glVertexAttribPointer (index size : Z) (normalized : bool) (stride pointer : Z)
    (st : gl_state) : gl_state :=
  if Z.leb GL_MAX_VERTEX_ATTRIBS index then record_error GL_INVALID_VALUE st
  else if Z.eqb size GL_BGRA then record_error GL_INVALID_OPERATION st
  else if negb (Z.leb 1 size && Z.leb size 4) then record_error GL_INVALID_VALUE st
  else if Z.ltb stride 0 then record_error GL_INVALID_VALUE st
  else if Z.eqb (vertex_array_binding st) 0 then record_error GL_INVALID_OPERATION st
  else if Z.eqb (array_buffer_binding st) 0 && negb (Z.eqb pointer 0)
  then record_error GL_INVALID_OPERATION st
  else
    let vao := vertex_array_binding st in
    let old := vertex_attribs st vao index in
    {| buffer_names := buffer_names st;
       vertex_array_names := vertex_array_names st;
       buffer_store := buffer_store st;
       array_buffer_binding := array_buffer_binding st;
       vertex_array_binding := vertex_array_binding st;
       element_array_buffer_binding := element_array_buffer_binding st;
       vertex_attribs :=
         upd (vertex_attribs st) vao
             (upd (vertex_attribs st vao) index
                  {| attrib_enabled := attrib_enabled old;
                     attrib_size := size;
                     attrib_normalized := normalized;
                     attrib_stride := stride;
                     attrib_pointer := pointer;
                     attrib_buffer := array_buffer_binding st |});
       error_flag := error_flag st |}.

(** [glEnableVertexAttribArray(index)]. *)
Definition glEnableVertexAttribArray (index : Z) (st : gl_state) : gl_state :=
  if Z.leb GL_MAX_VERTEX_ATTRIBS index then record_error GL_INVALID_VALUE st
  else if Z.eqb (vertex_array_binding st) 0 then record_error GL_INVALID_OPERATION st
  else
    let vao := vertex_array_binding st in
    let old := vertex_attribs st vao index in
    {| buffer_names := buffer_names st;
       vertex_array_names := vertex_array_names st;
       buffer_store := buffer_store st;
       array_buffer_binding := array_buffer_binding st;
       vertex_array_binding := vertex_array_binding st;
       element_array_buffer_binding := element_array_buffer_binding st;
       vertex_attribs :=
         upd (vertex_attribs st) vao
             (upd (vertex_attribs st vao) index
                  {| attrib_enabled := true;
                     attrib_size := attrib_size old;
                     attrib_normalized := attrib_normalized old;
                     attrib_stride := attrib_stride old;
                     attrib_pointer := attrib_pointer old;
                     attrib_buffer := attrib_buffer old |});
       error_flag := error_flag st |}.

(** [createVertexBuffer(location, dimensions, vertices)]; [bufferID] is
    the name that [glGenBuffers] writes into the local of that name.
    The byte count is the vector's size times [sizeof(float)]. *)
Definition createVertexBuffer (bufferID : Z) (location dimensions : Z) (vertices : list R)
    (st : gl_state) : Z * gl_state :=
  let st := glGenBuffers bufferID st in
  let st := glBindBuffer GL_ARRAY_BUFFER bufferID st in
  let st := glBufferData GL_ARRAY_BUFFER (Z.of_nat (length vertices) * sizeof_float)
                         (FloatData vertices) st in
  let st := glVertexAttribPointer (to_GLuint location) dimensions false 0 0 st in
  let st := glEnableVertexAttribArray (to_GLuint location) st in
  (bufferID, st).

(** [createIndexBuffer(indices)]. *)
Definition createIndexBuffer (bufferID : Z) (indices : list Z) (st : gl_state) : Z * gl_state :=
  let st := glGenBuffers bufferID st in
  let st := glBindBuffer GL_ELEMENT_ARRAY_BUFFER bufferID st in
  let st := glBufferData GL_ELEMENT_ARRAY_BUFFER
                         (Z.of_nat (length indices) * sizeof_unsigned_int)
                         (UIntData indices) st in
  (bufferID, st).

(** The buffer set-up of [main]: a vertex array object is generated and
    bound, the two attribute buffers and the index buffer are created,
    and the vertex array object is unbound again.  [vao], [b0], [b1] and
    [b2] are the names the driver hands out, in this order. *)
Definition setup_buffers (vao b0 b1 b2 : Z)
    (vertexArrayData colorArrayData : list R) (indexArrayData : list Z)
    (st : gl_state) : (Z * Z * Z * Z) * gl_state :=
  let vertexArrayID := vao in
  let st := glGenVertexArrays vertexArrayID st in
  let st := glBindVertexArray vertexArrayID st in
  let '(vertexBufferID, st) := createVertexBuffer b0 0 3 vertexArrayData st in
  let '(colorBufferID, st) := createVertexBuffer b1 1 3 colorArrayData st in
  let '(indexBufferID, st) := createIndexBuffer b2 indexArrayData st in
  let st := glBindVertexArray 0 st in
  ((vertexArrayID, vertexBufferID, colorBufferID, indexBufferID), st).

End GL.

(** * Properties *)

(** ** Facts that hold in every interpretation *)

Section Generic.
Context {F : Type} `{FloatOps F}.
Local Open Scope float_scope.

(** Two matrices (two vectors) are equal once their elements are. *)
Lemma Mat4_eq (a0 a1 a2 a3 a4 a5 a6 a7 a8 a9 a10 a11 a12 a13 a14 a15
               b0 b1 b2 b3 b4 b5 b6 b7 b8 b9 b10 b11 b12 b13 b14 b15 : F) :
  a0 = b0 -> a1 = b1 -> a2 = b2 -> a3 = b3 ->
  a4 = b4 -> a5 = b5 -> a6 = b6 -> a7 = b7 ->
  a8 = b8 -> a9 = b9 -> a10 = b10 -> a11 = b11 ->
  a12 = b12 -> a13 = b13 -> a14 = b14 -> a15 = b15 ->
  Mat4 a0 a1 a2 a3 a4 a5 a6 a7 a8 a9 a10 a11 a12 a13 a14 a15 =
  Mat4 b0 b1 b2 b3 b4 b5 b6 b7 b8 b9 b10 b11 b12 b13 b14 b15.
Proof. intros; subst; reflexivity. Qed.

Lemma Vec4_eq (a0 a1 a2 a3 b0 b1 b2 b3 : F) :
  a0 = b0 -> a1 = b1 -> a2 = b2 -> a3 = b3 -> Vec4 a0 a1 a2 a3 = Vec4 b0 b1 b2 b3.
Proof. intros; subst; reflexivity. Qed.

(** The record is the array: [data] has sixteen elements and [m.[i]]
    is its element number [i]. *)
Lemma data_length (m : mat4 F) : length (data m) = 16%nat.
Proof. reflexivity. Qed.

Lemma data_nth_error (m : mat4 F) (i : nat) :
  (i < 16)%nat -> nth_error (data m) i = Some m.[i].
Proof.
  intros Hi.
  do 16 (destruct i as [|i]; [ reflexivity | ]).
  lia.
Qed.

(** What [mat4perspective] stores, element by element, as the source
    writes it. *)
Lemma mat4perspective_data (vfov aspect znear zfar : F) :
  let f := f1 / ftan (vfov / f2) in
  data (mat4perspective vfov aspect znear zfar) =
  (f / aspect :: f0 :: f0 :: f0 ::
   f0 :: f :: f0 :: f0 ::
   f0 :: f0 :: (- (zfar + znear)) / (zfar - znear) :: - f1 ::
   f0 :: f0 :: (- (f2 * zfar * znear)) / (zfar - znear) :: f0 :: nil)%list.
Proof. reflexivity. Qed.

Lemma list4_eq (a0 a1 a2 a3 b0 b1 b2 b3 : F) :
  a0 = b0 -> a1 = b1 -> a2 = b2 -> a3 = b3 ->
  (a0 :: a1 :: a2 :: a3 :: nil)%list = (b0 :: b1 :: b2 :: b3 :: nil)%list.
Proof. intros; subst; reflexivity. Qed.

(** The six constructors that build affine transforms write the
    constants 0, 0, 0, 1 into the bottom row, whatever the argument. *)
Lemma constructors_bottom_row (angle s x y z : F) :
  bottom_row mat4identity = affine_row
  /\ bottom_row (mat4rotx angle) = affine_row
  /\ bottom_row (mat4roty angle) = affine_row
  /\ bottom_row (mat4rotz angle) = affine_row
  /\ bottom_row (mat4scale s) = affine_row
  /\ bottom_row (mat4translate x y z) = affine_row.
Proof. repeat split. Qed.

Lemma mat4mult_get (a b : mat4 F) (r c : nat) :
  (r < 4)%nat -> (c < 4)%nat ->
  (mat4mult a b).[c * 4 + r] =
  a.[0 * 4 + r] * b.[c * 4 + 0] + a.[1 * 4 + r] * b.[c * 4 + 1]
  + a.[2 * 4 + r] * b.[c * 4 + 2] + a.[3 * 4 + r] * b.[c * 4 + 3].
Proof.
  intros Hr Hc.
  do 4 (destruct r as [|r]; [ do 4 (destruct c as [|c]; [ reflexivity | ]); lia | ]).
  lia.
Qed.

(** C1.  For all matrices [a], [b] and every row [r] and column [c] in
    0..3, the element of [mat4mult a b] at the linear index [c*4+r] is
    the sum over [k] = 0..3 of [a[k*4+r] * b[c*4+k]], the terms added
    in the order of [k].  Nothing is assumed of the arithmetic, so the
    statement holds for each reading of the [float] operations. *)
Theorem mat4mult_is_matrix_product (a b : mat4 F) (r c : nat) :
  (r < 4)%nat -> (c < 4)%nat ->
  (mat4mult a b).[c * 4 + r] = sum_upto (fun k => a.[k * 4 + r] * b.[c * 4 + k]) 3.
Proof.
  intros Hr Hc. rewrite (mat4mult_get a b Hr Hc). reflexivity.
Qed.

End Generic.

(** ** Facts of the exact reading *)

(** Unfold the helpers down to the sixteen real expressions. *)
Ltac mat4_expand :=
  unfold mat4mult, mat4identity, mat4rotx, mat4roty, mat4rotz, mat4scale,
    mat4translate, mat4perspective, mat4apply, ndc_depth,
    linear_part, translation_column, bottom_row, affine_row;
  cbn.

Section Exact.
Local Open Scope R_scope.

Lemma mat4mult_is_matrix_product_witness :
  (1 < 4)%nat /\ (3 < 4)%nat
  /\ (mat4mult (mat4translate 1 2 3) (mat4scale 2)).[3 * 4 + 1] =
     sum_upto (fun k => ((mat4translate 1 2 3).[k * 4 + 1] * (mat4scale 2).[3 * 4 + k])%flt) 3.
Proof.
  split; [ lia | split; [ lia | ] ].
  apply (@mat4mult_is_matrix_product R R_ops (mat4translate 1 2 3) (mat4scale 2) 1 3); lia.
Defined.

Lemma mat4mult_identity_l (M : mat4 R) : mat4mult mat4identity M = M.
Proof. destruct M. mat4_expand. apply Mat4_eq; ring. Qed.

Lemma mat4mult_identity_r (M : mat4 R) : mat4mult M mat4identity = M.
Proof. destruct M. mat4_expand. apply Mat4_eq; ring. Qed.

(** In the exact reading [mat4identity] is the identity of [mat4mult]
    on both sides, element for element. *)
Lemma mat4identity_neutral (M : mat4 R) :
  mat4mult mat4identity M = M /\ mat4mult M mat4identity = M.
Proof. split; [ apply mat4mult_identity_l | apply mat4mult_identity_r ]. Qed.

Lemma cos_sq_plus_sin_sq (t : R) : cos t * cos t + sin t * sin t = 1.
Proof. generalize (sin2_cos2 t). unfold Rsqr. lra. Qed.

(** C5.  For every angle [theta], the rotation about z by [theta]
    composed with the rotation by [-theta] is the identity matrix
    (exactly in real arithmetic, hence within every tolerance). *)
Theorem mat4rotz_neg_inverse (theta : R) :
  mat4mult (mat4rotz theta) (mat4rotz (- theta)) = mat4identity.
Proof.
  mat4_expand. rewrite cos_neg, sin_neg.
  pose proof (cos_sq_plus_sin_sq theta) as Hcs.
  apply Mat4_eq; try ring.
  - transitivity (cos theta * cos theta + sin theta * sin theta); [ ring | exact Hcs ].
  - transitivity (cos theta * cos theta + sin theta * sin theta); [ ring | exact Hcs ].
Qed.

(** What [mat4rotx] does to a point: x stays, and (y, z) turns by
    [angle] from the y axis towards the z axis, the right-handed sense
    about x. *)
Lemma mat4rotx_apply (angle x y z w : R) :
  mat4apply (mat4rotx angle) (Vec4 x y z w) =
  Vec4 x (cos angle * y - sin angle * z) (sin angle * y + cos angle * z) w.
Proof. mat4_expand. apply Vec4_eq; ring. Qed.

(** C6.  [mat4rotx (PI/2)] takes the homogeneous point (0,1,0,1) to
    (0,0,1,1) (exactly in real arithmetic).  For every angle the matrix
    is the right-handed rotation about x: its upper-left 3x3 block has
    the columns (1,0,0), (0,cos,sin), (0,-sin,cos), and its last column
    and bottom row are those of the identity. *)
Theorem mat4rotx_quarter_turn :
  mat4apply (mat4rotx (PI / 2)) (Vec4 0 1 0 1) = Vec4 0 0 1 1
  /\ (forall angle : R,
        linear_part (mat4rotx angle) =
          (1 :: 0 :: 0 :: 0 :: cos angle :: sin angle :: 0 :: - sin angle :: cos angle :: nil)%list
        /\ translation_column (mat4rotx angle) = translation_column (mat4identity (F := R))
        /\ bottom_row (mat4rotx angle) = bottom_row (mat4identity (F := R)))
  /\ (forall angle x y z w : R,
        mat4apply (mat4rotx angle) (Vec4 x y z w) =
        Vec4 x (cos angle * y - sin angle * z) (sin angle * y + cos angle * z) w).
Proof.
  split; [ | split ].
  - rewrite mat4rotx_apply, cos_PI2, sin_PI2. apply Vec4_eq; ring.
  - intros angle. repeat split.
  - apply mat4rotx_apply.
Qed.

(** C7.  For all [x], [y], [z], [mat4translate x y z] has the linear
    part of the identity, the bottom row (0,0,0,1) and [x], [y], [z] at
    the linear indices 12, 13, 14, and it takes the homogeneous point
    (0,0,0,1) to (x,y,z,1). *)
Theorem mat4translate_spec (x y z : R) :
  linear_part (mat4translate x y z) = linear_part (mat4identity (F := R))
  /\ bottom_row (mat4translate x y z) = (0 :: 0 :: 0 :: 1 :: nil)%list
  /\ (mat4translate x y z).[12] = x
  /\ (mat4translate x y z).[13] = y
  /\ (mat4translate x y z).[14] = z
  /\ mat4apply (mat4translate x y z) (Vec4 0 0 0 1) = Vec4 x y z 1.
Proof.
  repeat split. mat4_expand. apply Vec4_eq; ring.
Qed.

(** C8.  For every factor [s], [mat4scale s] has [s] on the diagonal of
    its linear part and zeros elsewhere in it, the translation column
    and the bottom row of the identity, multiplies the x, y and z of
    every point by [s] and leaves its w, and so takes (1,1,1,1) to
    (s,s,s,1). *)
Theorem mat4scale_spec (s : R) :
  linear_part (mat4scale s) = (s :: 0 :: 0 :: 0 :: s :: 0 :: 0 :: 0 :: s :: nil)%list
  /\ translation_column (mat4scale s) = translation_column (mat4identity (F := R))
  /\ bottom_row (mat4scale s) = bottom_row (mat4identity (F := R))
  /\ (forall x y z w : R,
        mat4apply (mat4scale s) (Vec4 x y z w) = Vec4 (s * x) (s * y) (s * z) w)
  /\ mat4apply (mat4scale s) (Vec4 1 1 1 1) = Vec4 s s s 1.
Proof.
  repeat split.
  - intros x y z w. mat4_expand. apply Vec4_eq; ring.
  - mat4_expand. apply Vec4_eq; ring.
Qed.

Lemma mat4mult_bottom_row (a b : mat4 R) :
  bottom_row a = (0 :: 0 :: 0 :: 1 :: nil)%list ->
  bottom_row b = (0 :: 0 :: 0 :: 1 :: nil)%list ->
  bottom_row (mat4mult a b) = (0 :: 0 :: 0 :: 1 :: nil)%list.
Proof.
  intros Ha Hb. destruct a, b.
  unfold bottom_row in *. cbn in Ha, Hb.
  injection Ha as Ha3 Ha7 Ha11 Ha15. injection Hb as Hb3 Hb7 Hb11 Hb15.
  subst. unfold mat4mult. cbn. apply list4_eq; ring.
Qed.

(** The product applied to a point applies the right operand first. *)
Lemma mat4apply_mult (a b : mat4 R) (v : vec4 R) :
  mat4apply (mat4mult a b) v = mat4apply a (mat4apply b v).
Proof. destruct a, b, v. mat4_expand. apply Vec4_eq; ring. Qed.

(** The element of row [r] and column [c] of the product, with the sum
    of the real-number library. *)
Lemma mat4mult_entry (a b : mat4 R) (r c : nat) :
  (r < 4)%nat -> (c < 4)%nat ->
  entry (mat4mult a b) r c = sum_f_R0 (fun k => entry a r k * entry b k c) 3.
Proof.
  intros Hr Hc. unfold entry. rewrite (mat4mult_get a b Hr Hc). reflexivity.
Qed.

(** The product is not commutative: scaling after translating differs
    from translating after scaling. *)
Example mat4mult_not_commutative :
  (mat4mult (mat4translate 1 0 0) (mat4scale 2)).[12] = 1
  /\ (mat4mult (mat4scale 2) (mat4translate 1 0 0)).[12] = 2.
Proof. mat4_expand. split; ring. Qed.

(** The model-view product the render loop keeps in comments, on one
    corner of the cube. *)
Example translate_scale_corner :
  mat4apply (mat4mult (mat4translate 0 0 3) (mat4scale (1 / 2))) (Vec4 1 1 1 1) =
  Vec4 (1 / 2) (1 / 2) (7 / 2) 1.
Proof. mat4_expand. apply Vec4_eq; field. Qed.

Lemma tan_quarter_turn_half : tan (PI / 2 / 2) = 1.
Proof. replace (PI / 2 / 2) with (PI / 4) by field. apply tan_PI4. Qed.

(** C3.  For the call [mat4perspective(M_PI / 2, 1, 0.1, 100.0)] of the
    render loop: the element of column 2, row 3 (linear index 11) is
    -1, the element of column 2, row 2 (linear index 10) is
    -(far+near)/(far-near) with near = 0.1 and far = 100, and the
    elements at the indices 0 and 5 are f/aspect and f with
    f = 1/tan(fov/2), which is 1 here. *)
Theorem mat4perspective_main_call :
  let P := mat4perspective (PI / 2) 1 (1 / 10) 100 in
  let f := 1 / tan (PI / 2 / 2) in
  entry P 3 2 = -1
  /\ P.[11] = -1
  /\ entry P 2 2 = - (100 + 1 / 10) / (100 - 1 / 10)
  /\ P.[10] = - (100 + 1 / 10) / (100 - 1 / 10)
  /\ P.[0] = f / 1
  /\ P.[5] = f
  /\ f = 1
  /\ P.[10] = - (1001 / 999).
Proof.
  cbv zeta. repeat split.
  - rewrite tan_quarter_turn_half. field.
  - cbn. field.
Qed.

(** The clip-space position of the view-space point (x, y, z, 1). *)
Lemma mat4perspective_apply (vfov aspect znear zfar x y z : R) :
  let f := 1 / tan (vfov / 2) in
  mat4apply (mat4perspective vfov aspect znear zfar) (Vec4 x y z 1) =
  Vec4 (f / aspect * x) (f * y)
       (- (zfar + znear) / (zfar - znear) * z + - (2 * zfar * znear) / (zfar - znear))
       (- z).
Proof. cbv zeta. mat4_expand. apply Vec4_eq; ring. Qed.

(** The depth after the perspective divide, as a function of the
    view-space z. *)
Lemma mat4perspective_depth (vfov aspect znear zfar x y z : R) :
  znear < zfar -> z < 0 ->
  ndc_depth (mat4apply (mat4perspective vfov aspect znear zfar) (Vec4 x y z 1)) =
  (zfar + znear) / (zfar - znear) + 2 * zfar * znear / (zfar - znear) * / z.
Proof.
  intros Hnf Hz. rewrite mat4perspective_apply. unfold ndc_depth. cbn.
  field. split; lra.
Qed.

(** The near plane lands on depth -1 and the far plane on depth 1. *)
Lemma mat4perspective_depth_planes (vfov aspect znear zfar x y : R) :
  0 < znear -> znear < zfar ->
  ndc_depth (mat4apply (mat4perspective vfov aspect znear zfar) (Vec4 x y (- znear) 1)) = -1
  /\ ndc_depth (mat4apply (mat4perspective vfov aspect znear zfar) (Vec4 x y (- zfar) 1)) = 1.
Proof.
  intros Hn Hnf.
  split; (rewrite mat4perspective_depth by lra); field; split; lra.
Qed.

(** Depth grows with the distance from the eye: of two negative z, the
    greater one (the nearer point) gets the smaller depth. *)
Lemma mat4perspective_depth_lt (vfov aspect znear zfar x1 y1 z1 x2 y2 z2 : R) :
  0 < znear -> znear < zfar -> z2 < z1 -> z1 < 0 ->
  ndc_depth (mat4apply (mat4perspective vfov aspect znear zfar) (Vec4 x1 y1 z1 1)) <
  ndc_depth (mat4apply (mat4perspective vfov aspect znear zfar) (Vec4 x2 y2 z2 1)).
Proof.
  intros Hn Hnf H21 H1.
  rewrite !mat4perspective_depth by lra.
  apply Rplus_lt_compat_l, Rmult_lt_compat_l.
  - apply Rdiv_lt_0_compat; [ | lra ].
    apply Rmult_lt_0_compat; lra.
  - apply Rinv_lt_contravar; [ | exact H21 ].
    replace (z2 * z1) with ((- z2) * (- z1)) by ring.
    apply Rmult_lt_0_compat; lra.
Qed.

(** C2 (as the code has it).  For 0 < near < far and two view-space
    points with -far <= z2 < z1 <= -near, the clip-space w of each
    point is minus its z, and the depths after the perspective divide
    stay within [-1, 1] and are ordered as the distances are: the
    nearer point gets the smaller depth.  The near plane z = -near has
    depth -1 and the far plane z = -far has depth 1. *)
Theorem mat4perspective_depth_order
    (vfov aspect znear zfar x1 y1 z1 x2 y2 z2 : R) :
  0 < znear -> znear < zfar ->
  - zfar <= z2 -> z2 < z1 -> z1 <= - znear ->
  let P := mat4perspective vfov aspect znear zfar in
  let near_pt := mat4apply P (Vec4 x1 y1 z1 1) in
  let far_pt := mat4apply P (Vec4 x2 y2 z2 1) in
  vw near_pt = - z1
  /\ vw far_pt = - z2
  /\ -1 <= ndc_depth near_pt
  /\ ndc_depth near_pt < ndc_depth far_pt
  /\ ndc_depth far_pt <= 1
  /\ ndc_depth (mat4apply P (Vec4 x1 y1 (- znear) 1)) = -1
  /\ ndc_depth (mat4apply P (Vec4 x2 y2 (- zfar) 1)) = 1.
Proof.
  intros Hn Hnf Hf2 H21 H1n. cbv zeta.
  destruct (mat4perspective_depth_planes vfov aspect x1 y1 Hn Hnf) as [Hnear _].
  destruct (mat4perspective_depth_planes vfov aspect x2 y2 Hn Hnf) as [_ Hfar].
  split; [ | split; [ | split; [ | split; [ | split; [ | split; assumption ] ] ] ] ].
  - rewrite mat4perspective_apply. reflexivity.
  - rewrite mat4perspective_apply. reflexivity.
  - destruct (Req_dec z1 (- znear)) as [E | NE].
    + subst z1. rewrite Hnear. lra.
    + assert (Hlt := @mat4perspective_depth_lt vfov aspect znear zfar
                       x1 y1 (- znear) x1 y1 z1 Hn Hnf).
      rewrite Hnear in Hlt. apply Rlt_le, Hlt; lra.
  - apply mat4perspective_depth_lt; lra.
  - destruct (Req_dec z2 (- zfar)) as [E | NE].
    + subst z2. rewrite Hfar. lra.
    + assert (Hlt := @mat4perspective_depth_lt vfov aspect znear zfar
                       x2 y2 z2 x2 y2 (- zfar) Hn Hnf).
      rewrite Hfar in Hlt. apply Rlt_le, Hlt; lra.
Qed.

Lemma mat4perspective_depth_order_witness :
  let P := mat4perspective (PI / 2) 1 (1 / 10) 100 in
  let near_pt := mat4apply P (Vec4 0 0 (- 1) 1) in
  let far_pt := mat4apply P (Vec4 0 0 (- 50) 1) in
  vw near_pt = - - 1
  /\ vw far_pt = - - 50
  /\ -1 <= ndc_depth near_pt
  /\ ndc_depth near_pt < ndc_depth far_pt
  /\ ndc_depth far_pt <= 1
  /\ ndc_depth (mat4apply P (Vec4 0 0 (- (1 / 10)) 1)) = -1
  /\ ndc_depth (mat4apply P (Vec4 0 0 (- (100)) 1)) = 1.
Proof.
  apply (@mat4perspective_depth_order (PI / 2) 1 (1 / 10) 100 0 0 (- 1) 0 0 (- 50)); lra.
Defined.

(** Counterexample to the inverted-Z wording of C2, on the call of the
    render loop: the point on the near plane gets depth -1 and the point
    on the far plane depth 1, so the nearer point does not get the
    greater depth. *)
Lemma inverted_z_counterexample :
  let P := mat4perspective (PI / 2) 1 (1 / 10) 100 in
  let near_pt := mat4apply P (Vec4 0 0 (- (1 / 10)) 1) in
  let far_pt := mat4apply P (Vec4 0 0 (- (100)) 1) in
  (0 < 1 / 10 /\ 1 / 10 < 100)
  /\ ndc_depth near_pt = -1
  /\ ndc_depth far_pt = 1
  /\ ~ (ndc_depth near_pt > ndc_depth far_pt).
Proof.
  cbv zeta.
  assert (Hn : 0 < 1 / 10) by lra.
  assert (Hnf : 1 / 10 < 100) by lra.
  destruct (mat4perspective_depth_planes (PI / 2) 1 0 0 Hn Hnf) as [Hnear Hfar].
  rewrite Hnear, Hfar.
  repeat split; lra.
Qed.

End Exact.

(** ** Facts of the checked reading *)

Section Checked.
Local Open Scope R_scope.

Lemma checked_div_some (a b : R) :
  b <> 0 -> checked_div (Some a) (Some b) = Some (a / b).
Proof.
  intros Hb. unfold checked_div. destruct (Req_dec_T b 0) as [E | _]; [ contradiction | reflexivity ].
Qed.

Lemma checked_div_zero (a b : R) :
  b = 0 -> checked_div (Some a) (Some b) = None.
Proof.
  intros Hb. unfold checked_div. destruct (Req_dec_T b 0) as [_ | NE]; [ reflexivity | contradiction ].
Qed.

Lemma checked_div_none_l (y : option R) : checked_div None y = None.
Proof. reflexivity. Qed.

(** The helpers without a division never leave the defined values. *)
Lemma division_free_helpers_defined (angle s x y z : R) (a b : mat4 R) :
  mat4identity = mat4_some mat4identity
  /\ mat4rotx (Some angle) = mat4_some (mat4rotx angle)
  /\ mat4roty (Some angle) = mat4_some (mat4roty angle)
  /\ mat4rotz (Some angle) = mat4_some (mat4rotz angle)
  /\ mat4scale (Some s) = mat4_some (mat4scale s)
  /\ mat4translate (Some x) (Some y) (Some z) = mat4_some (mat4translate x y z)
  /\ mat4mult (mat4_some a) (mat4_some b) = mat4_some (mat4mult a b).
Proof. repeat split. Qed.

(** The focal factor [f = 1.0f / tan(vfov / 2.0f)] in the checked reading. *)
Lemma checked_focal (vfov : R) :
  tan (vfov / 2) <> 0 ->
  checked_div (Some 1) (lift1 tan (checked_div (Some vfov) (Some 2))) =
  Some (1 / tan (vfov / 2)).
Proof.
  intros Ht. rewrite (@checked_div_some vfov 2) by lra. cbn.
  apply checked_div_some, Ht.
Qed.

Lemma checked_focal_zero (vfov : R) :
  tan (vfov / 2) = 0 ->
  checked_div (Some 1) (lift1 tan (checked_div (Some vfov) (Some 2))) = None.
Proof.
  intros Ht. rewrite (@checked_div_some vfov 2) by lra. cbn.
  apply checked_div_zero, Ht.
Qed.

Lemma mat4perspective_defined (vfov aspect znear zfar : R) :
  tan (vfov / 2) <> 0 -> aspect <> 0 -> znear <> zfar ->
  mat4perspective (Some vfov) (Some aspect) (Some znear) (Some zfar) =
  mat4_some (mat4perspective vfov aspect znear zfar).
Proof.
  intros Ht Ha Hnf.
  unfold mat4perspective, mat4_some. cbn -[checked_div].
  rewrite (checked_focal Ht).
  rewrite !checked_div_some by lra.
  reflexivity.
Qed.

Lemma mat4perspective_undefined (vfov aspect znear zfar : R) :
  all_defined (mat4perspective (Some vfov) (Some aspect) (Some znear) (Some zfar)) ->
  tan (vfov / 2) <> 0 /\ aspect <> 0 /\ znear <> zfar.
Proof.
  intros Hdef.
  assert (Ht : tan (vfov / 2) <> 0).
  { intros Hz. apply (Hdef 5%nat).
    unfold mat4perspective. cbn -[checked_div]. apply checked_focal_zero, Hz. }
  split; [ exact Ht | split ].
  - intros Hz. apply (Hdef 0%nat).
    unfold mat4perspective. cbn -[checked_div].
    rewrite (checked_focal Ht). apply checked_div_zero, Hz.
  - intros Hz. apply (Hdef 10%nat).
    unfold mat4perspective. cbn -[checked_div].
    apply checked_div_zero. lra.
Qed.

(** C9 (as the code has it).  None of the helpers has an error path:
    each is a total function to a matrix.  [mat4identity], [mat4rotx],
    [mat4roty], [mat4rotz], [mat4scale], [mat4translate] and [mat4mult]
    contain no division and yield defined elements for all defined
    inputs.  [mat4perspective] divides by [tan(vfov/2)], by [aspect]
    and by [zfar - znear] (and by the constant 2): when these three
    are not zero it yields the matrix of the exact reading, and a zero
    in any of them leaves an element undefined. *)
Theorem helpers_total_and_divisions :
  (forall (angle s x y z : R) (a b : mat4 R),
      mat4identity = mat4_some mat4identity
      /\ mat4rotx (Some angle) = mat4_some (mat4rotx angle)
      /\ mat4roty (Some angle) = mat4_some (mat4roty angle)
      /\ mat4rotz (Some angle) = mat4_some (mat4rotz angle)
      /\ mat4scale (Some s) = mat4_some (mat4scale s)
      /\ mat4translate (Some x) (Some y) (Some z) = mat4_some (mat4translate x y z)
      /\ mat4mult (mat4_some a) (mat4_some b) = mat4_some (mat4mult a b))
  /\ (forall vfov aspect znear zfar : R,
        tan (vfov / 2) <> 0 -> aspect <> 0 -> znear <> zfar ->
        mat4perspective (Some vfov) (Some aspect) (Some znear) (Some zfar) =
        mat4_some (mat4perspective vfov aspect znear zfar))
  /\ (forall vfov aspect znear zfar : R,
        all_defined (mat4perspective (Some vfov) (Some aspect) (Some znear) (Some zfar)) ->
        tan (vfov / 2) <> 0 /\ aspect <> 0 /\ znear <> zfar).
Proof.
  split; [ | split ].
  - exact division_free_helpers_defined.
  - exact mat4perspective_defined.
  - exact mat4perspective_undefined.
Qed.

Lemma helpers_total_and_divisions_witness :
  mat4perspective (Some (PI / 2)) (Some 1) (Some (1 / 10)) (Some 100) =
  mat4_some (mat4perspective (PI / 2) 1 (1 / 10) 100).
Proof.
  apply (proj1 (proj2 helpers_total_and_divisions)).
  - rewrite tan_quarter_turn_half. lra.
  - lra.
  - lra.
Defined.

(** Counterexample to the wording of C9 that the division by
    [zfar - znear] is the only partial arithmetic: with near and far
    distinct, a zero aspect ratio still makes [f / aspect] a division by
    zero. *)
Lemma zero_aspect_counterexample :
  1 / 10 <> 100
  /\ (mat4perspective (Some (PI / 2)) (Some 0) (Some (1 / 10)) (Some 100)).[0] = None.
Proof.
  split; [ lra | ].
  unfold mat4perspective. cbn -[checked_div].
  rewrite checked_focal by (rewrite tan_quarter_turn_half; lra).
  apply checked_div_zero. reflexivity.
Qed.

(** A matrix of defined elements is the image of a real matrix. *)
Lemma all_defined_some (m : mat4 (option R)) :
  all_defined m -> exists m' : mat4 R, m = mat4_some m'.
Proof.
  intros Hdef. destruct m as [o0 o1 o2 o3 o4 o5 o6 o7 o8 o9 o10 o11 o12 o13 o14 o15].
  pose proof (Hdef 0%nat) as H0. pose proof (Hdef 1%nat) as H1.
  pose proof (Hdef 2%nat) as H2. pose proof (Hdef 3%nat) as H3.
  pose proof (Hdef 4%nat) as H4. pose proof (Hdef 5%nat) as H5.
  pose proof (Hdef 6%nat) as H6. pose proof (Hdef 7%nat) as H7.
  pose proof (Hdef 8%nat) as H8. pose proof (Hdef 9%nat) as H9.
  pose proof (Hdef 10%nat) as H10. pose proof (Hdef 11%nat) as H11.
  pose proof (Hdef 12%nat) as H12. pose proof (Hdef 13%nat) as H13.
  pose proof (Hdef 14%nat) as H14. pose proof (Hdef 15%nat) as H15.
  cbn in H0, H1, H2, H3, H4, H5, H6, H7, H8, H9, H10, H11, H12, H13, H14, H15.
  destruct o0 as [x0|]; [ | contradiction ]. destruct o1 as [x1|]; [ | contradiction ].
  destruct o2 as [x2|]; [ | contradiction ]. destruct o3 as [x3|]; [ | contradiction ].
  destruct o4 as [x4|]; [ | contradiction ]. destruct o5 as [x5|]; [ | contradiction ].
  destruct o6 as [x6|]; [ | contradiction ]. destruct o7 as [x7|]; [ | contradiction ].
  destruct o8 as [x8|]; [ | contradiction ]. destruct o9 as [x9|]; [ | contradiction ].
  destruct o10 as [x10|]; [ | contradiction ]. destruct o11 as [x11|]; [ | contradiction ].
  destruct o12 as [x12|]; [ | contradiction ]. destruct o13 as [x13|]; [ | contradiction ].
  destruct o14 as [x14|]; [ | contradiction ]. destruct o15 as [x15|]; [ | contradiction ].
  exists (Mat4 x0 x1 x2 x3 x4 x5 x6 x7 x8 x9 x10 x11 x12 x13 x14 x15). reflexivity.
Qed.

(** The matrix [mat4perspective(M_PI / 2, 0, 0.1, 100.0)]: its first
    element is [f / 0], undefined here and an infinity in [float]; the
    elements at the indices 1 and 4 are the constant 0. *)
Lemma zero_aspect_elements :
  (mat4perspective (Some (PI / 2)) (Some 0) (Some (1 / 10)) (Some 100)).[0] = None
  /\ (mat4perspective (Some (PI / 2)) (Some 0) (Some (1 / 10)) (Some 100)).[1] = Some 0
  /\ (mat4perspective (Some (PI / 2)) (Some 0) (Some (1 / 10)) (Some 100)).[4] = Some 0.
Proof.
  split; [ | split; reflexivity ].
  unfold mat4perspective. cbn -[checked_div].
  rewrite checked_focal by (rewrite tan_quarter_turn_half; lra).
  apply checked_div_zero. reflexivity.
Qed.

(** C4 (as the code has it).  [mat4identity] is the identity of
    [mat4mult] on both sides for the matrices of finite values: when no
    element of [M] is undefined, [mat4mult mat4identity M] and
    [mat4mult M mat4identity] are [M], element for element (exactly,
    hence within every tolerance). *)
Theorem mat4identity_neutral_finite (M : mat4 (option R)) :
  all_defined M ->
  mat4mult mat4identity M = M /\ mat4mult M mat4identity = M.
Proof.
  intros Hdef. destruct (all_defined_some Hdef) as [M' ->].
  change (mat4mult mat4identity (mat4_some M')) with (mat4_some (mat4mult mat4identity M')).
  change (mat4mult (mat4_some M') mat4identity) with (mat4_some (mat4mult M' mat4identity)).
  rewrite mat4mult_identity_l, mat4mult_identity_r. split; reflexivity.
Qed.

Lemma mat4identity_neutral_finite_witness :
  mat4mult mat4identity (mat4translate (Some 1) (Some 2) (Some 3)) =
    mat4translate (Some 1) (Some 2) (Some 3)
  /\ mat4mult (mat4translate (Some 1) (Some 2) (Some 3)) mat4identity =
     mat4translate (Some 1) (Some 2) (Some 3).
Proof.
  apply mat4identity_neutral_finite.
  intros i. do 16 (destruct i as [|i]; [ discriminate | ]). discriminate.
Defined.

(** Counterexample to C4 for every matrix: the library's own
    [mat4perspective(M_PI / 2, 0, 0.1, 100.0)] has an undefined first
    element (an infinity in [float]).  Its product with the identity on
    the left is undefined at index 1, and with the identity on the right
    at index 4 (0 times infinity, a NaN in [float]), where the matrix
    itself holds 0. *)
Lemma nonfinite_identity_counterexample :
  let M := mat4perspective (Some (PI / 2)) (Some 0) (Some (1 / 10)) (Some 100) in
  M.[0] = None
  /\ (M.[1] = Some 0 /\ (mat4mult mat4identity M).[1] = None)
  /\ (M.[4] = Some 0 /\ (mat4mult M mat4identity).[4] = None).
Proof.
  cbv zeta. destruct zero_aspect_elements as [H0 [H1 H4]].
  split; [ exact H0 | ].
  set (M := mat4perspective (Some (PI / 2)) (Some 0) (Some (1 / 10)) (Some 100)) in *.
  split; (split; [ assumption | ]).
  - change ((mat4mult mat4identity M).[1])
      with (lift2 Rplus (lift2 Rplus (lift2 Rplus (lift2 Rmult (Some 0) M.[0])
                                                   (lift2 Rmult (Some 1) M.[1]))
                                     (lift2 Rmult (Some 0) M.[2]))
                        (lift2 Rmult (Some 0) M.[3])).
    rewrite H0. reflexivity.
  - change ((mat4mult M mat4identity).[4])
      with (lift2 Rplus (lift2 Rplus (lift2 Rplus (lift2 Rmult M.[0] (Some 0))
                                                   (lift2 Rmult M.[4] (Some 1)))
                                     (lift2 Rmult M.[8] (Some 0)))
                        (lift2 Rmult M.[12] (Some 0))).
    rewrite H0. reflexivity.
Qed.

(** With a right factor of finite values, the bottom row of a product
    is computed from the two bottom rows alone. *)
Lemma mat4mult_bottom_row_finite (a b : mat4 (option R)) :
  all_defined b ->
  bottom_row a = (Some 0 :: Some 0 :: Some 0 :: Some 1 :: nil)%list ->
  bottom_row b = (Some 0 :: Some 0 :: Some 0 :: Some 1 :: nil)%list ->
  bottom_row (mat4mult a b) = (Some 0 :: Some 0 :: Some 0 :: Some 1 :: nil)%list.
Proof.
  intros Hdef Ha Hb. destruct (all_defined_some Hdef) as [b' ->].
  destruct a, b'. unfold bottom_row in *. cbn in Ha, Hb.
  injection Ha as Ha3 Ha7 Ha11 Ha15. injection Hb as Hb3 Hb7 Hb11 Hb15.
  subst. unfold mat4mult. cbn.
  apply list4_eq; f_equal; ring.
Qed.

(** C10 (as the code has it).  [mat4identity], [mat4rotx], [mat4roty],
    [mat4rotz], [mat4scale] and [mat4translate] return, for every
    argument, defined or not, a matrix whose bottom row (linear indices
    3, 7, 11, 15) is exactly (0,0,0,1); and when the bottom rows of [a]
    and [b] are (0,0,0,1) and all elements of [b] are finite values, the
    bottom row of [mat4mult a b] is (0,0,0,1) too. *)
Theorem bottom_row_invariant_finite :
  (forall angle s x y z : option R,
      bottom_row (mat4identity (F := option R)) = (Some 0 :: Some 0 :: Some 0 :: Some 1 :: nil)%list
      /\ bottom_row (mat4rotx angle) = (Some 0 :: Some 0 :: Some 0 :: Some 1 :: nil)%list
      /\ bottom_row (mat4roty angle) = (Some 0 :: Some 0 :: Some 0 :: Some 1 :: nil)%list
      /\ bottom_row (mat4rotz angle) = (Some 0 :: Some 0 :: Some 0 :: Some 1 :: nil)%list
      /\ bottom_row (mat4scale s) = (Some 0 :: Some 0 :: Some 0 :: Some 1 :: nil)%list
      /\ bottom_row (mat4translate x y z) = (Some 0 :: Some 0 :: Some 0 :: Some 1 :: nil)%list)
  /\ (forall a b : mat4 (option R),
        all_defined b ->
        bottom_row a = (Some 0 :: Some 0 :: Some 0 :: Some 1 :: nil)%list ->
        bottom_row b = (Some 0 :: Some 0 :: Some 0 :: Some 1 :: nil)%list ->
        bottom_row (mat4mult a b) = (Some 0 :: Some 0 :: Some 0 :: Some 1 :: nil)%list).
Proof.
  split.
  - intros angle s x y z. exact (constructors_bottom_row angle s x y z).
  - exact mat4mult_bottom_row_finite.
Qed.

Lemma bottom_row_invariant_finite_witness :
  bottom_row (mat4mult (mat4scale None) (mat4translate (Some 1) (Some 2) (Some 3))) =
  (Some 0 :: Some 0 :: Some 0 :: Some 1 :: nil)%list.
Proof.
  apply (proj2 bottom_row_invariant_finite).
  - intros i. do 16 (destruct i as [|i]; [ discriminate | ]). discriminate.
  - reflexivity.
  - reflexivity.
Defined.

(** Counterexample to C10 for any two matrices: [mat4scale(1.0f / 0.0f)]
    has the bottom row (0,0,0,1) and an undefined diagonal (infinities
    in [float]); its product with the identity on the left has the
    bottom row (undefined, undefined, undefined, 1), in [float]
    (NaN, NaN, NaN, 1). *)
Lemma nonfinite_bottom_row_counterexample :
  let S := mat4scale (checked_div (Some 1) (Some 0)) in
  bottom_row (mat4identity (F := option R)) = (Some 0 :: Some 0 :: Some 0 :: Some 1 :: nil)%list
  /\ bottom_row S = (Some 0 :: Some 0 :: Some 0 :: Some 1 :: nil)%list
  /\ bottom_row (mat4mult mat4identity S) = (None :: None :: None :: Some 1 :: nil)%list.
Proof.
  cbv zeta. rewrite (@checked_div_zero 1 0 eq_refl).
  split; [ reflexivity | split; [ reflexivity | ] ].
  unfold bottom_row, mat4mult. cbn.
  apply list4_eq; try reflexivity. f_equal. ring.
Qed.

End Checked.

(** ** How the transforms compose *)

Section Composition.
Local Open Scope R_scope.

Lemma mat4rotx_add (a b : R) : mat4mult (mat4rotx a) (mat4rotx b) = mat4rotx (a + b).
Proof. mat4_expand. rewrite cos_plus, sin_plus. apply Mat4_eq; ring. Qed.

Lemma mat4roty_add (a b : R) : mat4mult (mat4roty a) (mat4roty b) = mat4roty (a + b).
Proof. mat4_expand. rewrite cos_plus, sin_plus. apply Mat4_eq; ring. Qed.

Lemma mat4rotz_add (a b : R) : mat4mult (mat4rotz a) (mat4rotz b) = mat4rotz (a + b).
Proof. mat4_expand. rewrite cos_plus, sin_plus. apply Mat4_eq; ring. Qed.

Lemma mat4rot_zero :
  mat4rotx 0 = mat4identity /\ mat4roty 0 = mat4identity /\ mat4rotz 0 = mat4identity.
Proof.
  mat4_expand. rewrite cos_0, sin_0.
  repeat split; apply Mat4_eq; ring.
Qed.

Lemma mat4translate_add (x y z x' y' z' : R) :
  mat4mult (mat4translate x y z) (mat4translate x' y' z') =
  mat4translate (x + x') (y + y') (z + z').
Proof. mat4_expand. apply Mat4_eq; ring. Qed.

Lemma mat4scale_mul (s t : R) : mat4mult (mat4scale s) (mat4scale t) = mat4scale (s * t).
Proof. mat4_expand. apply Mat4_eq; ring. Qed.

(** X1.  [mat4mult] is associative: a chain of products gives the same
    matrix however it is grouped. *)
Theorem mat4mult_assoc (a b c : mat4 R) :
  mat4mult (mat4mult a b) c = mat4mult a (mat4mult b c).
Proof. destruct a, b, c. mat4_expand. apply Mat4_eq; ring. Qed.

(** X2.  The shader's [P * MV * vec4(Position, 1.0)] is [P] applied to
    [MV] applied to the position: in a product, the right factor acts on
    the vertex first.  The same holds along a longer chain. *)
Theorem gl_Position_composition (u : vs_uniforms) (a : vs_inputs) (m1 m2 m3 : mat4 R) (v : vec4 R) :
  gl_Position (vertex_main u a) =
    mat4apply (uP u)
      (mat4apply (uMV u) (Vec4 (x3 (Position a)) (y3 (Position a)) (z3 (Position a)) 1))
  /\ mat4apply (mat4mult m1 m2) v = mat4apply m1 (mat4apply m2 v)
  /\ mat4apply (mat4mult (mat4mult m1 m2) m3) v = mat4apply m1 (mat4apply m2 (mat4apply m3 v)).
Proof.
  split; [ | split ].
  - unfold vertex_main. cbn [gl_Position]. apply mat4apply_mult.
  - apply mat4apply_mult.
  - rewrite !mat4apply_mult. reflexivity.
Qed.

(** X3.  Rotations about one axis add their angles: the product of the
    rotations by [a] and by [b] is the rotation by [a + b], for each of
    [mat4rotx], [mat4roty] and [mat4rotz]; so two rotations about the
    same axis commute. *)
Theorem mat4rot_angles_add (a b : R) :
  mat4mult (mat4rotx a) (mat4rotx b) = mat4rotx (a + b)
  /\ mat4mult (mat4roty a) (mat4roty b) = mat4roty (a + b)
  /\ mat4mult (mat4rotz a) (mat4rotz b) = mat4rotz (a + b)
  /\ mat4mult (mat4rotx a) (mat4rotx b) = mat4mult (mat4rotx b) (mat4rotx a)
  /\ mat4mult (mat4roty a) (mat4roty b) = mat4mult (mat4roty b) (mat4roty a)
  /\ mat4mult (mat4rotz a) (mat4rotz b) = mat4mult (mat4rotz b) (mat4rotz a).
Proof.
  repeat split.
  - apply mat4rotx_add.
  - apply mat4roty_add.
  - apply mat4rotz_add.
  - rewrite !mat4rotx_add. f_equal. ring.
  - rewrite !mat4roty_add. f_equal. ring.
  - rewrite !mat4rotz_add. f_equal. ring.
Qed.

(** X4.  The rotation by [- theta] undoes the rotation by [theta], in
    either order, about x and about y, and about z with the negated
    angle on the left. *)
Theorem mat4rot_neg_inverse (theta : R) :
  mat4mult (mat4rotx theta) (mat4rotx (- theta)) = mat4identity
  /\ mat4mult (mat4rotx (- theta)) (mat4rotx theta) = mat4identity
  /\ mat4mult (mat4roty theta) (mat4roty (- theta)) = mat4identity
  /\ mat4mult (mat4roty (- theta)) (mat4roty theta) = mat4identity
  /\ mat4mult (mat4rotz (- theta)) (mat4rotz theta) = mat4identity.
Proof.
  destruct mat4rot_zero as [Hx [Hy Hz]].
  rewrite !mat4rotx_add, !mat4roty_add, !mat4rotz_add.
  replace (theta + - theta) with 0 by ring.
  replace (- theta + theta) with 0 by ring.
  rewrite Hx, Hy, Hz. repeat split.
Qed.

(** X5.  The neutral arguments: a rotation by 0 about any axis, a scale
    by 1 and a translation by (0,0,0) are the identity matrix. *)
Theorem neutral_arguments :
  mat4rotx 0 = mat4identity
  /\ mat4roty 0 = mat4identity
  /\ mat4rotz 0 = mat4identity
  /\ mat4scale 1 = mat4identity
  /\ mat4translate 0 0 0 = mat4identity.
Proof.
  destruct mat4rot_zero as [Hx [Hy Hz]].
  repeat split; assumption.
Qed.

Lemma mat4roty_apply (angle x y z w : R) :
  mat4apply (mat4roty angle) (Vec4 x y z w) =
  Vec4 (cos angle * x + sin angle * z) y (- sin angle * x + cos angle * z) w.
Proof. mat4_expand. apply Vec4_eq; ring. Qed.

Lemma mat4rotz_apply (angle x y z w : R) :
  mat4apply (mat4rotz angle) (Vec4 x y z w) =
  Vec4 (cos angle * x - sin angle * y) (sin angle * x + cos angle * y) z w.
Proof. mat4_expand. apply Vec4_eq; ring. Qed.

(** A plane rotation keeps the scalar product of the two rotated
    coordinates. *)
Lemma plane_rotation_dot (c s p q p' q' : R) :
  c * c + s * s = 1 ->
  (c * p - s * q) * (c * p' - s * q') + (s * p + c * q) * (s * p' + c * q') = p * p' + q * q'.
Proof.
  intros Hcs.
  transitivity ((c * c + s * s) * (p * p' + q * q')); [ ring | ].
  rewrite Hcs. ring.
Qed.

(** X6.  The three rotations are isometries: they keep the scalar
    product of the x, y, z parts of any two vectors (hence lengths and
    angles) and leave the w coordinate alone. *)
Theorem rotations_preserve_dot (angle : R) (u v : vec4 R) :
  (dot_xyz (mat4apply (mat4rotx angle) u) (mat4apply (mat4rotx angle) v) = dot_xyz u v
   /\ vw (mat4apply (mat4rotx angle) u) = vw u)
  /\ (dot_xyz (mat4apply (mat4roty angle) u) (mat4apply (mat4roty angle) v) = dot_xyz u v
      /\ vw (mat4apply (mat4roty angle) u) = vw u)
  /\ (dot_xyz (mat4apply (mat4rotz angle) u) (mat4apply (mat4rotz angle) v) = dot_xyz u v
      /\ vw (mat4apply (mat4rotz angle) u) = vw u).
Proof.
  destruct u as [ux uy uz uw], v as [x y z w].
  pose proof (cos_sq_plus_sin_sq angle) as Hcs.
  rewrite !mat4rotx_apply, !mat4roty_apply, !mat4rotz_apply.
  unfold dot_xyz. cbn [vx vy vz vw].
  repeat split.
  - pose proof (plane_rotation_dot uy uz y z Hcs). lra.
  - pose proof (plane_rotation_dot uz ux z x Hcs). lra.
  - pose proof (plane_rotation_dot ux uy x y Hcs). lra.
Qed.

(** X7.  [mat4roty] and [mat4rotz] are the right-handed rotations about
    y and about z: [mat4roty] turns the z axis towards the x axis and
    [mat4rotz] the x axis towards the y axis, so a quarter turn takes
    (0,0,1,1) to (1,0,0,1), respectively (1,0,0,1) to (0,1,0,1); the
    coordinate along the axis and w are unchanged. *)
Theorem mat4roty_mat4rotz_action :
  (forall angle x y z w : R,
      mat4apply (mat4roty angle) (Vec4 x y z w) =
      Vec4 (cos angle * x + sin angle * z) y (- sin angle * x + cos angle * z) w)
  /\ (forall angle x y z w : R,
        mat4apply (mat4rotz angle) (Vec4 x y z w) =
        Vec4 (cos angle * x - sin angle * y) (sin angle * x + cos angle * y) z w)
  /\ mat4apply (mat4roty (PI / 2)) (Vec4 0 0 1 1) = Vec4 1 0 0 1
  /\ mat4apply (mat4rotz (PI / 2)) (Vec4 1 0 0 1) = Vec4 0 1 0 1.
Proof.
  split; [ exact mat4roty_apply | split; [ exact mat4rotz_apply | split ] ].
  - rewrite mat4roty_apply, cos_PI2, sin_PI2. apply Vec4_eq; ring.
  - rewrite mat4rotz_apply, cos_PI2, sin_PI2. apply Vec4_eq; ring.
Qed.

(** X8.  Translations add: the product of two translations is the
    translation by the sum of the offsets (so translations commute), and
    the translation by the negated offset is the inverse.  Applied to a
    vector, [mat4translate x y z] adds [w] times the offset: a point
    (w = 1) moves by (x, y, z) and a direction (w = 0) stays as it is. *)
Theorem mat4translate_composition (x y z x' y' z' px py pz pw : R) :
  mat4mult (mat4translate x y z) (mat4translate x' y' z') =
    mat4translate (x + x') (y + y') (z + z')
  /\ mat4mult (mat4translate x y z) (mat4translate x' y' z') =
     mat4mult (mat4translate x' y' z') (mat4translate x y z)
  /\ mat4mult (mat4translate x y z) (mat4translate (- x) (- y) (- z)) = mat4identity
  /\ mat4apply (mat4translate x y z) (Vec4 px py pz pw) =
     Vec4 (px + x * pw) (py + y * pw) (pz + z * pw) pw
  /\ mat4apply (mat4translate x y z) (Vec4 px py pz 1) = Vec4 (px + x) (py + y) (pz + z) 1
  /\ mat4apply (mat4translate x y z) (Vec4 px py pz 0) = Vec4 px py pz 0.
Proof.
  repeat split.
  - apply mat4translate_add.
  - rewrite !mat4translate_add. mat4_expand. apply Mat4_eq; ring.
  - rewrite mat4translate_add. mat4_expand. apply Mat4_eq; ring.
  - mat4_expand. apply Vec4_eq; ring.
  - mat4_expand. apply Vec4_eq; ring.
  - mat4_expand. apply Vec4_eq; ring.
Qed.

(** X9.  Uniform scales multiply: the product of the scales by [s] and
    by [t] is the scale by [s * t]; for [s] other than 0 the scale by
    [1 / s] is the inverse of the scale by [s], on both sides. *)
Theorem mat4scale_composition :
  (forall s t : R, mat4mult (mat4scale s) (mat4scale t) = mat4scale (s * t))
  /\ (forall s : R,
        s <> 0 ->
        mat4mult (mat4scale s) (mat4scale (1 / s)) = mat4identity
        /\ mat4mult (mat4scale (1 / s)) (mat4scale s) = mat4identity).
Proof.
  split; [ exact mat4scale_mul | ].
  intros s Hs. rewrite !mat4scale_mul.
  split; mat4_expand; apply Mat4_eq; try reflexivity; field; exact Hs.
Qed.

Lemma mat4scale_composition_witness :
  mat4mult (mat4scale 2) (mat4scale (1 / 2)) = mat4identity
  /\ mat4mult (mat4scale (1 / 2)) (mat4scale 2) = mat4identity.
Proof.
  apply (proj2 mat4scale_composition 2). lra.
Defined.

(** X10.  A uniform scale commutes with every rotation, and moving it
    across a translation scales the offset:
    scale(s) * translate(x,y,z) = translate(s*x, s*y, s*z) * scale(s). *)
Theorem mat4scale_commutation (s angle x y z : R) :
  mat4mult (mat4scale s) (mat4rotx angle) = mat4mult (mat4rotx angle) (mat4scale s)
  /\ mat4mult (mat4scale s) (mat4roty angle) = mat4mult (mat4roty angle) (mat4scale s)
  /\ mat4mult (mat4scale s) (mat4rotz angle) = mat4mult (mat4rotz angle) (mat4scale s)
  /\ mat4mult (mat4scale s) (mat4translate x y z) =
     mat4mult (mat4translate (s * x) (s * y) (s * z)) (mat4scale s).
Proof.
  repeat split; mat4_expand; apply Mat4_eq; ring.
Qed.

End Composition.

(** ** Affine transforms and the w coordinate *)

Section Affine.
Local Open Scope R_scope.



End Affine.

(** ** The view frustum *)

Section Frustum.
Local Open Scope R_scope.

(** X12.  With a field of view whose half-angle has a positive tangent,
    a positive aspect ratio and 0 < near < far, the view-space points
    that [mat4perspective] sends into the clip volume are exactly those
    of the symmetric frustum: z between -far and -near, |y| at most
    -z * tan(vfov/2) and |x| at most -z * aspect * tan(vfov/2). *)
Theorem mat4perspective_clip_volume (vfov aspect znear zfar x y z : R) :
  0 < tan (vfov / 2) -> 0 < aspect -> 0 < znear -> znear < zfar ->
  in_clip_volume (mat4apply (mat4perspective vfov aspect znear zfar) (Vec4 x y z 1)) <->
  (z * (aspect * tan (vfov / 2)) <= x <= - z * (aspect * tan (vfov / 2)))
  /\ (z * tan (vfov / 2) <= y <= - z * tan (vfov / 2))
  /\ (- zfar <= z <= - znear).
Proof.
  intros Ht Ha Hn Hnf.
  rewrite mat4perspective_apply. unfold in_clip_volume. cbn [vx vy vz vw].
  set (t := tan (vfov / 2)) in *.
  assert (Hx : 1 / t / aspect * x * (aspect * t) = x) by (field; lra).
  assert (Hy : 1 / t * y * t = y) by (field; lra).
  assert (Hz : (- (zfar + znear) / (zfar - znear) * z + - (2 * zfar * znear) / (zfar - znear))
               * (zfar - znear) = - (zfar + znear) * z - 2 * zfar * znear) by (field; lra).
  set (cx := 1 / t / aspect * x) in *.
  set (cy := 1 / t * y) in *.
  set (cz := - (zfar + znear) / (zfar - znear) * z + - (2 * zfar * znear) / (zfar - znear)) in *.
  assert (Hk : 0 < aspect * t) by (apply Rmult_lt_0_compat; assumption).
  assert (Hd : 0 < zfar - znear) by lra.
  split.
  - intros [[Hx1 Hx2] [[Hy1 Hy2] [Hz1 Hz2]]].
    repeat split; nra.
  - intros [[Hx1 Hx2] [[Hy1 Hy2] [Hz1 Hz2]]].
    repeat split; nra.
Qed.

Lemma mat4perspective_clip_volume_witness :
  in_clip_volume
    (mat4apply (mat4perspective (PI / 2) 1 (1 / 10) 100) (Vec4 (1 / 2) (- 1) (- 2) 1)).
Proof.
  assert (Ht : tan (PI / 2 / 2) = 1) by exact tan_quarter_turn_half.
  apply (@mat4perspective_clip_volume (PI / 2) 1 (1 / 10) 100 (1 / 2) (- 1) (- 2)).
  - rewrite Ht. lra.
  - lra.
  - lra.
  - lra.
  - rewrite Ht. lra.
Defined.

(** X13.  Perspective foreshortening: for a view-space point with z
    other than 0, the screen coordinates after the perspective divide
    are [f / aspect * x / (- z)] and [f * y / (- z)] with
    [f = 1 / tan(vfov / 2)], whatever near and far are; so every point
    [k * (x, y, z)], [k] not 0, of the line through the eye has the same
    screen position. *)
Theorem mat4perspective_foreshortening (vfov aspect znear zfar x y z k : R) :
  z <> 0 -> k <> 0 ->
  let P := mat4perspective vfov aspect znear zfar in
  let f := 1 / tan (vfov / 2) in
  ndc_x (mat4apply P (Vec4 x y z 1)) = f / aspect * x / (- z)
  /\ ndc_y (mat4apply P (Vec4 x y z 1)) = f * y / (- z)
  /\ ndc_x (mat4apply P (Vec4 (k * x) (k * y) (k * z) 1)) = ndc_x (mat4apply P (Vec4 x y z 1))
  /\ ndc_y (mat4apply P (Vec4 (k * x) (k * y) (k * z) 1)) = ndc_y (mat4apply P (Vec4 x y z 1)).
Proof.
  intros Hz Hk. cbv zeta.
  rewrite !mat4perspective_apply. unfold ndc_x, ndc_y. cbn.
  generalize (1 / tan (vfov / 2) / aspect). intros fa.
  generalize (1 / tan (vfov / 2)). intros f.
  repeat split; field; auto.
Qed.

Lemma mat4perspective_foreshortening_witness :
  let P := mat4perspective (PI / 2) 1 (1 / 10) 100 in
  let f := 1 / tan (PI / 2 / 2) in
  ndc_x (mat4apply P (Vec4 1 1 (- 2) 1)) = f / 1 * 1 / (- - 2)
  /\ ndc_y (mat4apply P (Vec4 1 1 (- 2) 1)) = f * 1 / (- - 2)
  /\ ndc_x (mat4apply P (Vec4 (3 * 1) (3 * 1) (3 * - 2) 1)) = ndc_x (mat4apply P (Vec4 1 1 (- 2) 1))
  /\ ndc_y (mat4apply P (Vec4 (3 * 1) (3 * 1) (3 * - 2) 1)) = ndc_y (mat4apply P (Vec4 1 1 (- 2) 1)).
Proof.
  apply (@mat4perspective_foreshortening (PI / 2) 1 (1 / 10) 100 1 1 (- 2) 3); lra.
Defined.

End Frustum.

(** ** The vertex shader and the render loop *)

Section Shader.
Local Open Scope R_scope.

Lemma Vec3_eq (a0 a1 a2 b0 b1 b2 : R) :
  a0 = b0 -> a1 = b1 -> a2 = b2 -> Vec3 a0 a1 a2 = Vec3 b0 b1 b2.
Proof. intros; subst; reflexivity. Qed.

Lemma sum_sq_nonneg (x y z : R) : 0 <= x * x + y * y + z * z.
Proof. nra. Qed.

(** A vector of non-zero length, once normalised, has length 1. *)
Lemma length3_normalize (v : vec3) : length3 v <> 0 -> length3 (normalize v) = 1.
Proof.
  intros Hv. destruct v as [x y z]. unfold normalize, length3 in *. cbn [x3 y3 z3] in *.
  set (S := x * x + y * y + z * z) in *.
  assert (HS : 0 <= S) by apply sum_sq_nonneg.
  replace (x / sqrt S * (x / sqrt S) + y / sqrt S * (y / sqrt S) + z / sqrt S * (z / sqrt S))
    with (S / (sqrt S * sqrt S)) by (unfold S; field; exact Hv).
  rewrite (sqrt_sqrt S HS).
  replace (S / S) with 1; [ apply sqrt_1 | ].
  field. intros E. apply Hv. rewrite E. apply sqrt_0.
Qed.

(** Stretching a vector by a positive factor does not change its
    normalised form. *)
Lemma normalize_scaled (s : R) (v : vec3) :
  0 < s -> normalize (Vec3 (s * x3 v) (s * y3 v) (s * z3 v)) = normalize v.
Proof.
  intros Hs. destruct v as [x y z]. unfold normalize, length3. cbn [x3 y3 z3].
  replace (s * x * (s * x) + s * y * (s * y) + s * z * (s * z))
    with ((s * s) * (x * x + y * y + z * z)) by ring.
  rewrite sqrt_mult_alt by nra.
  rewrite sqrt_square by lra.
  unfold Rdiv. rewrite Rinv_mult.
  generalize (/ sqrt (x * x + y * y + z * z)). intros k.
  apply Vec3_eq; field; lra.
Qed.

Lemma mat3_mul_translate_l (x y z : R) (m : mat4 R) (n : vec3) :
  bottom_row m = (0 :: 0 :: 0 :: 1 :: nil)%list ->
  mat3_mul (mat4mult (mat4translate x y z) m) n = mat3_mul m n.
Proof.
  intros Hm. destruct m, n. unfold bottom_row in Hm. cbn in Hm.
  injection Hm as H3 H7 H11 H15. subst.
  unfold mat3_mul. mat4_expand. apply Vec3_eq; ring.
Qed.

Lemma mat3_mul_translate_r (x y z : R) (m : mat4 R) (n : vec3) :
  mat3_mul (mat4mult m (mat4translate x y z)) n = mat3_mul m n.
Proof.
  destruct m, n. unfold mat3_mul. mat4_expand. apply Vec3_eq; ring.
Qed.

Lemma mat3_mul_scale_l (s : R) (m : mat4 R) (n : vec3) :
  mat3_mul (mat4mult (mat4scale s) m) n =
  Vec3 (s * x3 (mat3_mul m n)) (s * y3 (mat3_mul m n)) (s * z3 (mat3_mul m n)).
Proof.
  destruct m, n. unfold mat3_mul. mat4_expand. apply Vec3_eq; ring.
Qed.

Lemma mat3_mul_scale_r (s : R) (m : mat4 R) (n : vec3) :
  mat3_mul (mat4mult m (mat4scale s)) n =
  Vec3 (s * x3 (mat3_mul m n)) (s * y3 (mat3_mul m n)) (s * z3 (mat3_mul m n)).
Proof.
  destruct m, n. unfold mat3_mul. mat4_expand. apply Vec3_eq; ring.
Qed.

(** A rotation about x keeps the length of a [vec3]. *)
Lemma length3_mat4rotx (angle : R) (n : vec3) :
  length3 (mat3_mul (mat4rotx angle) n) = length3 n.
Proof.
  destruct n as [x y z]. unfold length3, mat3_mul. mat4_expand. f_equal.
  pose proof (plane_rotation_dot y z y z (cos_sq_plus_sin_sq angle)). lra.
Qed.

Lemma normalize_unit (v : vec3) : length3 v = 1 -> normalize v = v.
Proof.
  intros Hv. destruct v as [x y z]. unfold normalize. rewrite Hv. cbn [x3 y3 z3].
  apply Vec3_eq; field.
Qed.

Lemma mat4rotx_period (time : R) : mat4rotx ((time + 4) * PI / 2) = mat4rotx (time * PI / 2).
Proof.
  replace ((time + 4) * PI / 2) with (time * PI / 2 + 2 * PI) by field.
  unfold mat4rotx. cbn. rewrite cos_plus, sin_plus, cos_2PI, sin_2PI.
  apply Mat4_eq; ring.
Qed.

(** X14.  Whenever [mat3(MV) * Normal] is not the zero vector, the
    [interpolatedNormal] that the vertex shader writes has length 1. *)
Theorem interpolatedNormal_unit (u : vs_uniforms) (a : vs_inputs) :
  length3 (mat3_mul (uMV u) (Normal a)) <> 0 ->
  length3 (interpolatedNormal (vertex_main u a)) = 1.
Proof.
  intros Hn. unfold vertex_main. cbn [interpolatedNormal].
  apply length3_normalize, Hn.
Qed.

Lemma interpolatedNormal_unit_witness :
  length3 (interpolatedNormal
             (vertex_main (VsUniforms 0 mat4identity (mat4scale 2) mat4identity)
                          (VsInputs (Vec3 0 0 0) (Vec3 0 1 0) (Vec2 0 0)))) = 1.
Proof.
  apply interpolatedNormal_unit.
  unfold mat3_mul, length3. mat4_expand.
  replace (2 * 0 + 0 * 1 + 0 * 0) with 0 by ring.
  replace (0 * 0 + 2 * 1 + 0 * 0) with 2 by ring.
  replace (0 * 0 + 0 * 1 + 2 * 0) with 0 by ring.
  replace (0 * 0 + 2 * 2 + 0 * 0) with (2 * 2) by ring.
  rewrite sqrt_square by lra. lra.
Defined.

(** X15.  The shader's normal ignores translation and uniform scaling
    of the model-view matrix: [interpolatedNormal] is the same when [MV]
    is multiplied by a translation on the right, by a translation on the
    left (for [MV] with bottom row (0,0,0,1)), or by a scale with a
    positive factor on either side; [st] passes [TexCoord] through. *)
Theorem interpolatedNormal_invariance
    (time : R) (r mv p : mat4 R) (a : vs_inputs) (x y z s : R) :
  interpolatedNormal (vertex_main (VsUniforms time r (mat4mult mv (mat4translate x y z)) p) a) =
    interpolatedNormal (vertex_main (VsUniforms time r mv p) a)
  /\ (bottom_row mv = (0 :: 0 :: 0 :: 1 :: nil)%list ->
      interpolatedNormal (vertex_main (VsUniforms time r (mat4mult (mat4translate x y z) mv) p) a) =
        interpolatedNormal (vertex_main (VsUniforms time r mv p) a))
  /\ (0 < s ->
      interpolatedNormal (vertex_main (VsUniforms time r (mat4mult (mat4scale s) mv) p) a) =
        interpolatedNormal (vertex_main (VsUniforms time r mv p) a)
      /\ interpolatedNormal (vertex_main (VsUniforms time r (mat4mult mv (mat4scale s)) p) a) =
           interpolatedNormal (vertex_main (VsUniforms time r mv p) a))
  /\ st (vertex_main (VsUniforms time r mv p) a) = TexCoord a.
Proof.
  unfold vertex_main. cbn [interpolatedNormal st uMV].
  split; [ | split; [ | split ] ].
  - rewrite mat3_mul_translate_r. reflexivity.
  - intros Hmv. rewrite (mat3_mul_translate_l x y z (Normal a) Hmv). reflexivity.
  - intros Hs. rewrite mat3_mul_scale_l, mat3_mul_scale_r.
    split; apply normalize_scaled, Hs.
  - reflexivity.
Qed.

Lemma interpolatedNormal_invariance_witness :
  interpolatedNormal
    (vertex_main (VsUniforms 0 mat4identity
                    (mat4mult (mat4scale 2) (mat4mult (mat4translate 1 2 3) (mat4rotx 1)))
                    mat4identity)
                 (VsInputs (Vec3 0 0 0) (Vec3 0 1 0) (Vec2 0 0))) =
  interpolatedNormal
    (vertex_main (VsUniforms 0 mat4identity (mat4rotx 1) mat4identity)
                 (VsInputs (Vec3 0 0 0) (Vec3 0 1 0) (Vec2 0 0))).
Proof.
  destruct (@interpolatedNormal_invariance 0 mat4identity
              (mat4mult (mat4translate 1 2 3) (mat4rotx 1)) mat4identity
              (VsInputs (Vec3 0 0 0) (Vec3 0 1 0) (Vec2 0 0)) 0 0 0 2)
    as [_ [_ [Hscale _]]].
  destruct (@interpolatedNormal_invariance 0 mat4identity (mat4rotx 1) mat4identity
              (VsInputs (Vec3 0 0 0) (Vec3 0 1 0) (Vec2 0 0)) 1 2 3 1)
    as [_ [Htranslate _]].
  assert (Hpos : 0 < 2) by lra.
  destruct (Hscale Hpos) as [Hleft _].
  exact (eq_trans Hleft (Htranslate eq_refl)).
Defined.

(** X16.  In the render loop the model-view matrix is the rotation
    about x by [time * M_PI / 2], so everything the shader writes for a
    vertex repeats every 4 seconds; the light direction is (1, 0.8, 1)
    on every frame since [R] stays the identity; and for a vertex whose
    [Normal] has length 1 the [interpolatedNormal] is that normal
    rotated, with no rescaling. *)
Theorem render_loop_frame (time : R) (a : vs_inputs) :
  length3 (Normal a) = 1 ->
  vertex_main (frame_uniforms (time + 4)) a = vertex_main (frame_uniforms time) a
  /\ lightDirection (vertex_main (frame_uniforms time) a) = Vec3 1 (8 / 10) 1
  /\ interpolatedNormal (vertex_main (frame_uniforms time) a) =
     Vec3 (x3 (Normal a))
          (cos (time * PI / 2) * y3 (Normal a) - sin (time * PI / 2) * z3 (Normal a))
          (sin (time * PI / 2) * y3 (Normal a) + cos (time * PI / 2) * z3 (Normal a)).
Proof.
  intros Hn. split; [ | split ].
  - unfold vertex_main, frame_uniforms. cbn [uMV uP uR].
    rewrite mat4rotx_period. reflexivity.
  - unfold vertex_main, frame_uniforms. cbn [lightDirection uR].
    unfold mat3_mul. mat4_expand. apply Vec3_eq; ring.
  - unfold vertex_main, frame_uniforms. cbn [interpolatedNormal uMV].
    rewrite normalize_unit by (rewrite length3_mat4rotx; exact Hn).
    destruct (Normal a) as [x y z]. unfold mat3_mul. mat4_expand. apply Vec3_eq; ring.
Qed.

Lemma render_loop_frame_witness :
  vertex_main (frame_uniforms (1 + 4)) (VsInputs (Vec3 1 1 1) (Vec3 0 1 0) (Vec2 0 0)) =
    vertex_main (frame_uniforms 1) (VsInputs (Vec3 1 1 1) (Vec3 0 1 0) (Vec2 0 0))
  /\ lightDirection (vertex_main (frame_uniforms 1) (VsInputs (Vec3 1 1 1) (Vec3 0 1 0) (Vec2 0 0))) =
     Vec3 1 (8 / 10) 1
  /\ interpolatedNormal
       (vertex_main (frame_uniforms 1) (VsInputs (Vec3 1 1 1) (Vec3 0 1 0) (Vec2 0 0))) =
     Vec3 0 (cos (1 * PI / 2) * 1 - sin (1 * PI / 2) * 0)
            (sin (1 * PI / 2) * 1 + cos (1 * PI / 2) * 0).
Proof.
  apply (@render_loop_frame 1 (VsInputs (Vec3 1 1 1) (Vec3 0 1 0) (Vec2 0 0))).
  unfold length3. cbn [Normal x3 y3 z3].
  replace (0 * 0 + 1 * 1 + 0 * 0) with 1 by ring. apply sqrt_1.
Defined.

End Shader.

(** ** The buffer helpers *)

(** Reduce the field accesses of an explicit OpenGL state. *)
Ltac gl_simpl :=
  cbn [buffer_names vertex_array_names buffer_store array_buffer_binding
       vertex_array_binding element_array_buffer_binding vertex_attribs error_flag
       record_error fst snd bound_buffer negb andb
       attrib_enabled attrib_size attrib_normalized attrib_stride attrib_pointer attrib_buffer].

Section BufferHelpers.
Local Open Scope Z_scope.

Variable GL_MAX_VERTEX_ATTRIBS : Z.

(** OpenGL guarantees at least 16 generic attributes, and reports their
    number as a [GLint]. *)
Hypothesis max_attribs_min : 16 <= GL_MAX_VERTEX_ATTRIBS.
Hypothesis max_attribs_max : GL_MAX_VERTEX_ATTRIBS < 2 ^ 31.

Lemma upd_same (A : Type) (f : Z -> A) (k : Z) (v : A) : upd f k v k = v.
Proof. unfold upd. rewrite Z.eqb_refl. reflexivity. Qed.

Lemma upd_other (A : Type) (f : Z -> A) (k j : Z) (v : A) : j <> k -> upd f k v j = f j.
Proof. intros Hj. unfold upd. destruct (Z.eqb_spec j k); [ contradiction | reflexivity ]. Qed.

Lemma is_name_head (n : Z) (names : list Z) : is_name n (n :: names) = true.
Proof. unfold is_name. cbn. rewrite Z.eqb_refl. reflexivity. Qed.

Lemma first_bytes_floats (l : list R) :
  first_bytes (Z.of_nat (length l) * sizeof_float) (FloatData l) = FloatData l.
Proof.
  unfold first_bytes, sizeof_float. rewrite Z.div_mul by lia.
  rewrite Nat2Z.id, firstn_all. reflexivity.
Qed.

Lemma first_bytes_uints (l : list Z) :
  first_bytes (Z.of_nat (length l) * sizeof_unsigned_int) (UIntData l) = UIntData l.
Proof.
  unfold first_bytes, sizeof_unsigned_int. rewrite Z.div_mul by lia.
  rewrite Nat2Z.id, firstn_all. reflexivity.
Qed.

Lemma to_GLuint_small (i : Z) : 0 <= i < 2 ^ 32 -> to_GLuint i = i.
Proof. intros Hi. unfold to_GLuint. apply Z.mod_small, Hi. Qed.

Lemma to_GLuint_negative (i : Z) : - 2 ^ 31 <= i < 0 -> to_GLuint i = i + 2 ^ 32.
Proof.
  intros Hi. unfold to_GLuint.
  symmetry. apply (Z.mod_unique i (2 ^ 32) (-1) (i + 2 ^ 32)); lia.
Qed.

(** The state after the first three calls of either helper: the new
    name is known, bound to the target, and holds [size] bytes. *)
Lemma upload_state (target : buffer_target) (bufferID size : Z) (data : buffer_data)
    (st : gl_state) :
  bufferID <> 0 -> 0 <= size ->
  glBufferData target size data (glBindBuffer target bufferID (glGenBuffers bufferID st)) =
  {| buffer_names := bufferID :: buffer_names st;
     vertex_array_names := vertex_array_names st;
     buffer_store := upd (buffer_store st) bufferID (Some (first_bytes size data));
     array_buffer_binding :=
       match target with
       | GL_ARRAY_BUFFER => bufferID
       | GL_ELEMENT_ARRAY_BUFFER => array_buffer_binding st
       end;
     vertex_array_binding := vertex_array_binding st;
     element_array_buffer_binding :=
       match target with
       | GL_ARRAY_BUFFER => element_array_buffer_binding st
       | GL_ELEMENT_ARRAY_BUFFER =>
           upd (element_array_buffer_binding st) (vertex_array_binding st) bufferID
       end;
     vertex_attribs := vertex_attribs st;
     error_flag := error_flag st |}.
Proof.
  intros Hid Hsize.
  unfold glBindBuffer, glGenBuffers. gl_simpl.
  rewrite is_name_head, andb_false_r.
  destruct target; unfold glBufferData; gl_simpl; try rewrite upd_same.
  all: rewrite (proj2 (Z.eqb_neq bufferID 0) Hid), (proj2 (Z.ltb_ge size 0) Hsize).
  all: reflexivity.
Qed.

Lemma glVertexAttribPointer_ok (index size : Z) (normalized : bool) (st : gl_state) :
  index < GL_MAX_VERTEX_ATTRIBS -> 1 <= size <= 4 -> vertex_array_binding st <> 0 ->
  glVertexAttribPointer GL_MAX_VERTEX_ATTRIBS index size normalized 0 0 st =
  {| buffer_names := buffer_names st;
     vertex_array_names := vertex_array_names st;
     buffer_store := buffer_store st;
     array_buffer_binding := array_buffer_binding st;
     vertex_array_binding := vertex_array_binding st;
     element_array_buffer_binding := element_array_buffer_binding st;
     vertex_attribs :=
       upd (vertex_attribs st) (vertex_array_binding st)
           (upd (vertex_attribs st (vertex_array_binding st)) index
                {| attrib_enabled :=
                     attrib_enabled (vertex_attribs st (vertex_array_binding st) index);
                   attrib_size := size;
                   attrib_normalized := normalized;
                   attrib_stride := 0;
                   attrib_pointer := 0;
                   attrib_buffer := array_buffer_binding st |});
     error_flag := error_flag st |}.
Proof.
  intros Hi Hs Hv. unfold glVertexAttribPointer.
  rewrite (proj2 (Z.leb_gt GL_MAX_VERTEX_ATTRIBS index) Hi).
  replace (size =? GL_BGRA) with false
    by (symmetry; apply Z.eqb_neq; unfold GL_BGRA; lia).
  rewrite (proj2 (Z.leb_le 1 size) (proj1 Hs)), (proj2 (Z.leb_le size 4) (proj2 Hs)).
  rewrite (proj2 (Z.eqb_neq _ 0) Hv).
  cbn [negb andb Z.ltb Z.compare Z.eqb]. rewrite andb_false_r. reflexivity.
Qed.

Lemma glVertexAttribPointer_bad_index (index size : Z) (normalized : bool) (st : gl_state) :
  GL_MAX_VERTEX_ATTRIBS <= index ->
  glVertexAttribPointer GL_MAX_VERTEX_ATTRIBS index size normalized 0 0 st =
  record_error GL_INVALID_VALUE st.
Proof.
  intros Hi. unfold glVertexAttribPointer.
  rewrite (proj2 (Z.leb_le GL_MAX_VERTEX_ATTRIBS index) Hi). reflexivity.
Qed.

Lemma glVertexAttribPointer_bgra (index : Z) (normalized : bool) (st : gl_state) :
  index < GL_MAX_VERTEX_ATTRIBS ->
  glVertexAttribPointer GL_MAX_VERTEX_ATTRIBS index GL_BGRA normalized 0 0 st =
  record_error GL_INVALID_OPERATION st.
Proof.
  intros Hi. unfold glVertexAttribPointer.
  rewrite (proj2 (Z.leb_gt GL_MAX_VERTEX_ATTRIBS index) Hi).
  rewrite Z.eqb_refl. reflexivity.
Qed.

Lemma glVertexAttribPointer_bad_size (index size : Z) (normalized : bool) (st : gl_state) :
  index < GL_MAX_VERTEX_ATTRIBS -> size < 1 \/ 4 < size -> size <> GL_BGRA ->
  glVertexAttribPointer GL_MAX_VERTEX_ATTRIBS index size normalized 0 0 st =
  record_error GL_INVALID_VALUE st.
Proof.
  intros Hi Hs Hb. unfold glVertexAttribPointer.
  rewrite (proj2 (Z.leb_gt GL_MAX_VERTEX_ATTRIBS index) Hi).
  rewrite (proj2 (Z.eqb_neq size GL_BGRA) Hb).
  replace ((1 <=? size) && (size <=? 4)) with false; [ reflexivity | ].
  symmetry. apply andb_false_iff.
  destruct Hs as [Hs | Hs]; [ left | right ]; apply Z.leb_gt; exact Hs.
Qed.

Lemma glEnableVertexAttribArray_ok (index : Z) (st : gl_state) :
  index < GL_MAX_VERTEX_ATTRIBS -> vertex_array_binding st <> 0 ->
  glEnableVertexAttribArray GL_MAX_VERTEX_ATTRIBS index st =
  {| buffer_names := buffer_names st;
     vertex_array_names := vertex_array_names st;
     buffer_store := buffer_store st;
     array_buffer_binding := array_buffer_binding st;
     vertex_array_binding := vertex_array_binding st;
     element_array_buffer_binding := element_array_buffer_binding st;
     vertex_attribs :=
       upd (vertex_attribs st) (vertex_array_binding st)
           (upd (vertex_attribs st (vertex_array_binding st)) index
                {| attrib_enabled := true;
                   attrib_size := attrib_size (vertex_attribs st (vertex_array_binding st) index);
                   attrib_normalized :=
                     attrib_normalized (vertex_attribs st (vertex_array_binding st) index);
                   attrib_stride :=
                     attrib_stride (vertex_attribs st (vertex_array_binding st) index);
                   attrib_pointer :=
                     attrib_pointer (vertex_attribs st (vertex_array_binding st) index);
                   attrib_buffer :=
                     attrib_buffer (vertex_attribs st (vertex_array_binding st) index) |});
     error_flag := error_flag st |}.
Proof.
  intros Hi Hv. unfold glEnableVertexAttribArray.
  rewrite (proj2 (Z.leb_gt GL_MAX_VERTEX_ATTRIBS index) Hi).
  rewrite (proj2 (Z.eqb_neq _ 0) Hv). reflexivity.
Qed.

Lemma glEnableVertexAttribArray_bad_index (index : Z) (st : gl_state) :
  GL_MAX_VERTEX_ATTRIBS <= index ->
  glEnableVertexAttribArray GL_MAX_VERTEX_ATTRIBS index st = record_error GL_INVALID_VALUE st.
Proof.
  intros Hi. unfold glEnableVertexAttribArray.
  rewrite (proj2 (Z.leb_le GL_MAX_VERTEX_ATTRIBS index) Hi). reflexivity.
Qed.

Ltac upd_cases :=
  unfold upd;
  repeat match goal with
         | |- context [Z.eqb ?a ?b] => destruct (Z.eqb_spec a b); subst
         end;
  try reflexivity; try contradiction; try lia.

Lemma createVertexBuffer_fields
    (bufferID location dimensions : Z) (vertices : list R) (st : gl_state) :
  bufferID <> 0 ->
  vertex_array_binding st <> 0 ->
  0 <= location < GL_MAX_VERTEX_ATTRIBS ->
  1 <= dimensions <= 4 ->
  let vao := vertex_array_binding st in
  let st' :=
    snd (createVertexBuffer GL_MAX_VERTEX_ATTRIBS bufferID location dimensions vertices st) in
  fst (createVertexBuffer GL_MAX_VERTEX_ATTRIBS bufferID location dimensions vertices st)
    = bufferID
  /\ buffer_store st' bufferID = Some (FloatData vertices)
  /\ array_buffer_binding st' = bufferID
  /\ vertex_attribs st' vao location =
       {| attrib_enabled := true; attrib_size := dimensions; attrib_normalized := false;
          attrib_stride := 0; attrib_pointer := 0; attrib_buffer := bufferID |}
  /\ (forall b, b <> bufferID -> buffer_store st' b = buffer_store st b)
  /\ (forall v i, v <> vao \/ i <> location -> vertex_attribs st' v i = vertex_attribs st v i)
  /\ (forall v, element_array_buffer_binding st' v = element_array_buffer_binding st v)
  /\ vertex_array_binding st' = vao
  /\ error_flag st' = error_flag st.
Proof.
  intros Hid Hvao Hloc Hdim. cbv zeta.
  unfold createVertexBuffer.
  rewrite upload_state by (unfold sizeof_float; lia || exact Hid).
  rewrite first_bytes_floats.
  rewrite to_GLuint_small by lia.
  rewrite glVertexAttribPointer_ok by (gl_simpl; lia || exact Hvao).
  rewrite glEnableVertexAttribArray_ok by (gl_simpl; lia || exact Hvao).
  gl_simpl.
  split; [ reflexivity | ].
  split; [ apply upd_same | ].
  split; [ reflexivity | ].
  split; [ rewrite !upd_same; gl_simpl; reflexivity | ].
  split; [ intros b Hb; apply upd_other, Hb | ].
  split; [ | repeat split ].
  intros v i [Hv | Hi]; upd_cases.
Qed.

Lemma createIndexBuffer_fields (bufferID : Z) (indices : list Z) (st : gl_state) :
  bufferID <> 0 ->
  let vao := vertex_array_binding st in
  let st' := snd (createIndexBuffer bufferID indices st) in
  fst (createIndexBuffer bufferID indices st) = bufferID
  /\ buffer_store st' bufferID = Some (UIntData indices)
  /\ element_array_buffer_binding st' vao = bufferID
  /\ (forall v, v <> vao ->
        element_array_buffer_binding st' v = element_array_buffer_binding st v)
  /\ array_buffer_binding st' = array_buffer_binding st
  /\ (forall v i, vertex_attribs st' v i = vertex_attribs st v i)
  /\ (forall b, b <> bufferID -> buffer_store st' b = buffer_store st b)
  /\ vertex_array_binding st' = vao
  /\ error_flag st' = error_flag st.
Proof.
  intros Hid. cbv zeta.
  unfold createIndexBuffer.
  rewrite upload_state by (unfold sizeof_unsigned_int; lia || exact Hid).
  rewrite first_bytes_uints. gl_simpl.
  split; [ reflexivity | ].
  split; [ apply upd_same | ].
  split; [ apply upd_same | ].
  split; [ intros v Hv; apply upd_other, Hv | ].
  split; [ reflexivity | ].
  split; [ reflexivity | ].
  split; [ intros b Hb; apply upd_other, Hb | ].
  split; reflexivity.
Qed.

(** X17.  With a vertex array object bound, a [location] below
    [GL_MAX_VERTEX_ATTRIBS] and 1 to 4 [dimensions], [createVertexBuffer]
    returns the new buffer's name; that buffer holds exactly the vector
    (four bytes per element) and stays bound to [GL_ARRAY_BUFFER]; the
    attribute [location] of the bound vertex array object is enabled and
    reads [dimensions] unnormalised floats per vertex, tightly packed
    from offset 0 of the new buffer.  Every other buffer, every other
    attribute, the element array binding and the error flag are as
    before. *)
Theorem createVertexBuffer_configures
    (bufferID location dimensions : Z) (vertices : list R) (st : gl_state) :
  bufferID <> 0 ->
  vertex_array_binding st <> 0 ->
  0 <= location < GL_MAX_VERTEX_ATTRIBS ->
  1 <= dimensions <= 4 ->
  let vao := vertex_array_binding st in
  let st' :=
    snd (createVertexBuffer GL_MAX_VERTEX_ATTRIBS bufferID location dimensions vertices st) in
  fst (createVertexBuffer GL_MAX_VERTEX_ATTRIBS bufferID location dimensions vertices st)
    = bufferID
  /\ buffer_store st' bufferID = Some (FloatData vertices)
  /\ array_buffer_binding st' = bufferID
  /\ vertex_attribs st' vao location =
       {| attrib_enabled := true; attrib_size := dimensions; attrib_normalized := false;
          attrib_stride := 0; attrib_pointer := 0; attrib_buffer := bufferID |}
  /\ (forall b, b <> bufferID -> buffer_store st' b = buffer_store st b)
  /\ (forall v i, v <> vao \/ i <> location -> vertex_attribs st' v i = vertex_attribs st v i)
  /\ (forall v, element_array_buffer_binding st' v = element_array_buffer_binding st v)
  /\ vertex_array_binding st' = vao
  /\ error_flag st' = error_flag st.
Proof.
  intros Hid Hvao Hloc Hdim.
  exact (@createVertexBuffer_fields bufferID location dimensions vertices st Hid Hvao Hloc Hdim).
Qed.

(** X18.  With a vertex array object bound, [createIndexBuffer] returns
    the new buffer's name; that buffer holds exactly the indices and
    becomes the element array buffer of the bound vertex array object.
    The [GL_ARRAY_BUFFER] binding, every vertex attribute, every other
    buffer and the error flag are as before. *)
Theorem createIndexBuffer_binds (bufferID : Z) (indices : list Z) (st : gl_state) :
  bufferID <> 0 ->
  vertex_array_binding st <> 0 ->
  let vao := vertex_array_binding st in
  let st' := snd (createIndexBuffer bufferID indices st) in
  fst (createIndexBuffer bufferID indices st) = bufferID
  /\ buffer_store st' bufferID = Some (UIntData indices)
  /\ element_array_buffer_binding st' vao = bufferID
  /\ (forall v, v <> vao ->
        element_array_buffer_binding st' v = element_array_buffer_binding st v)
  /\ array_buffer_binding st' = array_buffer_binding st
  /\ (forall v i, vertex_attribs st' v i = vertex_attribs st v i)
  /\ (forall b, b <> bufferID -> buffer_store st' b = buffer_store st b)
  /\ vertex_array_binding st' = vao
  /\ error_flag st' = error_flag st.
Proof.
  intros Hid _.
  exact (@createIndexBuffer_fields bufferID indices st Hid).
Qed.

(** X19.  [createVertexBuffer] checks nothing.  For every [int]
    [location] and [dimensions], with a vertex array object bound and no
    error pending, it creates and fills the buffer, leaves it bound and
    returns its name.  A [location] that is negative or not below
    [GL_MAX_VERTEX_ATTRIBS] leaves every vertex attribute as it was and
    sets the error flag, to [GL_INVALID_VALUE] unless [dimensions] is
    [GL_BGRA].  A valid [location] with [dimensions] outside 1..4
    enables the attribute with its previous format and source, and the
    error flag is [GL_INVALID_OPERATION] when [dimensions] is [GL_BGRA]
    and [GL_INVALID_VALUE] otherwise.  The error flag is the only
    trace. *)
Theorem createVertexBuffer_unchecked
    (bufferID location dimensions : Z) (vertices : list R) (st : gl_state) :
  bufferID <> 0 ->
  vertex_array_binding st <> 0 ->
  error_flag st = None ->
  - 2 ^ 31 <= location < 2 ^ 31 ->
  let vao := vertex_array_binding st in
  let st' :=
    snd (createVertexBuffer GL_MAX_VERTEX_ATTRIBS bufferID location dimensions vertices st) in
  (fst (createVertexBuffer GL_MAX_VERTEX_ATTRIBS bufferID location dimensions vertices st)
     = bufferID
   /\ buffer_store st' bufferID = Some (FloatData vertices)
   /\ array_buffer_binding st' = bufferID)
  /\ (location < 0 \/ GL_MAX_VERTEX_ATTRIBS <= location ->
      (forall v i, vertex_attribs st' v i = vertex_attribs st v i)
      /\ error_flag st' <> None
      /\ (dimensions <> GL_BGRA -> error_flag st' = Some GL_INVALID_VALUE))
  /\ (0 <= location < GL_MAX_VERTEX_ATTRIBS -> dimensions < 1 \/ 4 < dimensions ->
      vertex_attribs st' vao location =
        {| attrib_enabled := true;
           attrib_size := attrib_size (vertex_attribs st vao location);
           attrib_normalized := attrib_normalized (vertex_attribs st vao location);
           attrib_stride := attrib_stride (vertex_attribs st vao location);
           attrib_pointer := attrib_pointer (vertex_attribs st vao location);
           attrib_buffer := attrib_buffer (vertex_attribs st vao location) |}
      /\ error_flag st' =
           Some (if dimensions =? GL_BGRA then GL_INVALID_OPERATION else GL_INVALID_VALUE)).
Proof.
  intros Hid Hvao Herr Hint. cbv zeta.
  unfold createVertexBuffer.
  rewrite upload_state by (unfold sizeof_float; lia || exact Hid).
  rewrite first_bytes_floats.
  assert (Hcases : GL_MAX_VERTEX_ATTRIBS <= to_GLuint location
                   \/ (0 <= location < GL_MAX_VERTEX_ATTRIBS /\ to_GLuint location = location)).
  { destruct (Z_lt_le_dec location 0) as [Hneg | Hpos].
    - left. rewrite to_GLuint_negative by lia. lia.
    - rewrite to_GLuint_small by lia.
      destruct (Z_lt_le_dec location GL_MAX_VERTEX_ATTRIBS); [ right | left ]; lia. }
  destruct Hcases as [Hbad | [Hloc Hsame]].
  - rewrite glVertexAttribPointer_bad_index by exact Hbad.
    rewrite glEnableVertexAttribArray_bad_index by exact Hbad.
    gl_simpl. rewrite Herr.
    split; [ split; [ reflexivity | split; [ apply upd_same | reflexivity ] ] | ].
    split.
    + intros _. split; [ reflexivity | split; [ discriminate | reflexivity ] ].
    + intros Hloc. exfalso.
      destruct (Z_lt_le_dec location 0) as [Hneg | Hpos]; [ lia | ].
      rewrite to_GLuint_small in Hbad by lia. lia.
  - rewrite Hsame.
    destruct (Z.eqb_spec dimensions GL_BGRA) as [Hbgra | Hother].
    + subst dimensions.
      rewrite glVertexAttribPointer_bgra by lia.
      rewrite glEnableVertexAttribArray_ok by (gl_simpl; lia || exact Hvao).
      gl_simpl. rewrite Herr.
      split; [ split; [ reflexivity | split; [ apply upd_same | reflexivity ] ] | ].
      split; [ intros Hout; exfalso; lia | ].
      intros _ _. rewrite !upd_same. split; reflexivity.
    + destruct (Z_lt_le_dec dimensions 1) as [Hlow | Hge1];
        [ | destruct (Z_lt_le_dec 4 dimensions) as [Hhigh | Hle4] ].
      * rewrite glVertexAttribPointer_bad_size by (lia || exact Hother || (left; exact Hlow)).
        rewrite glEnableVertexAttribArray_ok by (gl_simpl; lia || exact Hvao).
        gl_simpl. rewrite Herr.
        split; [ split; [ reflexivity | split; [ apply upd_same | reflexivity ] ] | ].
        split; [ intros Hout; exfalso; lia | ].
        intros _ _. rewrite !upd_same. split; reflexivity.
      * rewrite glVertexAttribPointer_bad_size by (lia || exact Hother || (right; exact Hhigh)).
        rewrite glEnableVertexAttribArray_ok by (gl_simpl; lia || exact Hvao).
        gl_simpl. rewrite Herr.
        split; [ split; [ reflexivity | split; [ apply upd_same | reflexivity ] ] | ].
        split; [ intros Hout; exfalso; lia | ].
        intros _ _. rewrite !upd_same. split; reflexivity.
      * rewrite glVertexAttribPointer_ok by (gl_simpl; lia || exact Hvao).
        rewrite glEnableVertexAttribArray_ok by (gl_simpl; lia || exact Hvao).
        gl_simpl.
        split; [ split; [ reflexivity | split; [ apply upd_same | reflexivity ] ] | ].
        split; [ intros Hout; exfalso; lia | ].
        intros _ Hdim. exfalso. lia.
Qed.

Lemma glBindVertexArray_generated (vao : Z) (st : gl_state) :
  glBindVertexArray vao (glGenVertexArrays vao st) =
  {| buffer_names := buffer_names st;
     vertex_array_names := vao :: vertex_array_names st;
     buffer_store := buffer_store st;
     array_buffer_binding := array_buffer_binding st;
     vertex_array_binding := vao;
     element_array_buffer_binding := element_array_buffer_binding st;
     vertex_attribs := vertex_attribs st;
     error_flag := error_flag st |}.
Proof.
  unfold glBindVertexArray, glGenVertexArrays. gl_simpl.
  rewrite is_name_head, andb_false_r. reflexivity.
Qed.

Lemma glBindVertexArray_zero (st : gl_state) :
  glBindVertexArray 0 st =
  {| buffer_names := buffer_names st;
     vertex_array_names := vertex_array_names st;
     buffer_store := buffer_store st;
     array_buffer_binding := array_buffer_binding st;
     vertex_array_binding := 0;
     element_array_buffer_binding := element_array_buffer_binding st;
     vertex_attribs := vertex_attribs st;
     error_flag := error_flag st |}.
Proof. reflexivity. Qed.

Lemma setup_buffers_steps (vao b0 b1 b2 : Z)
    (vertexArrayData colorArrayData : list R) (indexArrayData : list Z) (st : gl_state) :
  setup_buffers GL_MAX_VERTEX_ATTRIBS vao b0 b1 b2
                vertexArrayData colorArrayData indexArrayData st =
  ((vao, b0, b1, b2),
   glBindVertexArray 0
     (snd (createIndexBuffer b2 indexArrayData
        (snd (createVertexBuffer GL_MAX_VERTEX_ATTRIBS b1 1 3 colorArrayData
           (snd (createVertexBuffer GL_MAX_VERTEX_ATTRIBS b0 0 3 vertexArrayData
              (glBindVertexArray vao (glGenVertexArrays vao st))))))))).
Proof. reflexivity. Qed.

(** X20.  The buffer set-up of [main], given fresh names by the driver:
    when it ends no vertex array object is bound, and the one it filled
    has attribute 0 enabled on the vertex buffer and attribute 1 enabled
    on the colour buffer, three floats per vertex each, and the index
    buffer as its element array buffer.  The three buffers hold the
    three vectors; creating the later buffers does not disturb the
    earlier attribute, although [GL_ARRAY_BUFFER] ends up bound to the
    colour buffer.  No call raises an error. *)
Theorem setup_buffers_result (vao b0 b1 b2 : Z)
    (vertexArrayData colorArrayData : list R) (indexArrayData : list Z) (st : gl_state) :
  vao <> 0 -> b0 <> 0 -> b1 <> 0 -> b2 <> 0 ->
  b0 <> b1 -> b0 <> b2 -> b1 <> b2 ->
  let st' := snd (setup_buffers GL_MAX_VERTEX_ATTRIBS vao b0 b1 b2
                                vertexArrayData colorArrayData indexArrayData st) in
  fst (setup_buffers GL_MAX_VERTEX_ATTRIBS vao b0 b1 b2
                     vertexArrayData colorArrayData indexArrayData st) = (vao, b0, b1, b2)
  /\ vertex_array_binding st' = 0
  /\ vertex_attribs st' vao 0 =
       {| attrib_enabled := true; attrib_size := 3; attrib_normalized := false;
          attrib_stride := 0; attrib_pointer := 0; attrib_buffer := b0 |}
  /\ vertex_attribs st' vao 1 =
       {| attrib_enabled := true; attrib_size := 3; attrib_normalized := false;
          attrib_stride := 0; attrib_pointer := 0; attrib_buffer := b1 |}
  /\ element_array_buffer_binding st' vao = b2
  /\ buffer_store st' b0 = Some (FloatData vertexArrayData)
  /\ buffer_store st' b1 = Some (FloatData colorArrayData)
  /\ buffer_store st' b2 = Some (UIntData indexArrayData)
  /\ array_buffer_binding st' = b1
  /\ error_flag st' = error_flag st.
Proof.
  intros Hvao H0 H1 H2 H01 H02 H12. cbv zeta.
  rewrite setup_buffers_steps. cbn [fst snd].
  rewrite glBindVertexArray_zero. gl_simpl.
  rewrite glBindVertexArray_generated.
  set (st1 := {| buffer_names := buffer_names st;
                 vertex_array_names := vao :: vertex_array_names st;
                 buffer_store := buffer_store st;
                 array_buffer_binding := array_buffer_binding st;
                 vertex_array_binding := vao;
                 element_array_buffer_binding := element_array_buffer_binding st;
                 vertex_attribs := vertex_attribs st;
                 error_flag := error_flag st |}).
  assert (Hv1 : vertex_array_binding st1 <> 0) by exact Hvao.
  destruct (@createVertexBuffer_fields b0 0 3 vertexArrayData st1 H0 Hv1
              ltac:(lia) ltac:(lia))
    as [_ [Hs0 [_ [Ha0 [_ [_ [_ [Hvb0 He0]]]]]]]].
  set (st2 := snd (createVertexBuffer GL_MAX_VERTEX_ATTRIBS b0 0 3 vertexArrayData st1)) in *.
  assert (Hv2 : vertex_array_binding st2 <> 0) by (rewrite Hvb0; exact Hvao).
  destruct (@createVertexBuffer_fields b1 1 3 colorArrayData st2 H1 Hv2
              ltac:(lia) ltac:(lia))
    as [_ [Hs1 [Hb1 [Ha1 [Hso1 [Hao1 [Heb1 [Hvb1 He1]]]]]]]].
  set (st3 := snd (createVertexBuffer GL_MAX_VERTEX_ATTRIBS b1 1 3 colorArrayData st2)) in *.
  destruct (@createIndexBuffer_fields b2 indexArrayData st3 H2)
    as [_ [Hs2 [Hel2 [_ [Hab2 [Hat2 [Hso2 [_ He2]]]]]]]].
  set (st4 := snd (createIndexBuffer b2 indexArrayData st3)) in *.
  assert (E12 : vertex_array_binding st2 = vao) by exact Hvb0.
  assert (E13 : vertex_array_binding st3 = vao) by (rewrite Hvb1; exact E12).
  split; [ reflexivity | ].
  split; [ reflexivity | ].
  split.
  { rewrite Hat2, Hao1 by (right; lia). rewrite <- Ha0. reflexivity. }
  split.
  { rewrite Hat2. rewrite <- Ha1. rewrite E12. reflexivity. }
  split.
  { rewrite <- E13. exact Hel2. }
  split.
  { rewrite Hso2 by exact H02. rewrite Hso1 by exact H01. exact Hs0. }
  split.
  { rewrite Hso2 by exact H12. exact Hs1. }
  split; [ exact Hs2 | ].
  split.
  { rewrite Hab2. exact Hb1. }
  rewrite He2, He1, He0. reflexivity.
Qed.

End BufferHelpers.

Section BufferHelperRuns.
Local Open Scope Z_scope.

Lemma createVertexBuffer_configures_witness :
  let st := glBindVertexArray 1 (glGenVertexArrays 1 gl_initial_state) in
  let st' := snd (createVertexBuffer 16 7 1 3 (1%R :: 2%R :: 3%R :: nil) st) in
  fst (createVertexBuffer 16 7 1 3 (1%R :: 2%R :: 3%R :: nil) st) = 7
  /\ buffer_store st' 7 = Some (FloatData (1%R :: 2%R :: 3%R :: nil))
  /\ array_buffer_binding st' = 7
  /\ vertex_attribs st' (vertex_array_binding st) 1 =
       {| attrib_enabled := true; attrib_size := 3; attrib_normalized := false;
          attrib_stride := 0; attrib_pointer := 0; attrib_buffer := 7 |}
  /\ (forall b, b <> 7 -> buffer_store st' b = buffer_store st b)
  /\ (forall v i, v <> vertex_array_binding st \/ i <> 1 ->
        vertex_attribs st' v i = vertex_attribs st v i)
  /\ (forall v, element_array_buffer_binding st' v = element_array_buffer_binding st v)
  /\ vertex_array_binding st' = vertex_array_binding st
  /\ error_flag st' = error_flag st.
Proof.
  apply (@createVertexBuffer_configures 16); first [ lia | cbn; lia ].
Defined.

Lemma createIndexBuffer_binds_witness :
  let st := glBindVertexArray 1 (glGenVertexArrays 1 gl_initial_state) in
  let st' := snd (createIndexBuffer 9 (0 :: 1 :: 2 :: nil) st) in
  fst (createIndexBuffer 9 (0 :: 1 :: 2 :: nil) st) = 9
  /\ buffer_store st' 9 = Some (UIntData (0 :: 1 :: 2 :: nil))
  /\ element_array_buffer_binding st' (vertex_array_binding st) = 9
  /\ (forall v, v <> vertex_array_binding st ->
        element_array_buffer_binding st' v = element_array_buffer_binding st v)
  /\ array_buffer_binding st' = array_buffer_binding st
  /\ (forall v i, vertex_attribs st' v i = vertex_attribs st v i)
  /\ (forall b, b <> 9 -> buffer_store st' b = buffer_store st b)
  /\ vertex_array_binding st' = vertex_array_binding st
  /\ error_flag st' = error_flag st.
Proof.
  apply createIndexBuffer_binds; first [ lia | cbn; lia ].
Defined.

Lemma createVertexBuffer_unchecked_witness :
  let st := glBindVertexArray 1 (glGenVertexArrays 1 gl_initial_state) in
  let st' := snd (createVertexBuffer 16 7 (- 1) 3 (1%R :: 2%R :: 3%R :: nil) st) in
  let st'' := snd (createVertexBuffer 16 7 1 GL_BGRA (1%R :: 2%R :: 3%R :: nil) st) in
  (buffer_store st' 7 = Some (FloatData (1%R :: 2%R :: 3%R :: nil))
   /\ (forall v i, vertex_attribs st' v i = vertex_attribs st v i)
   /\ error_flag st' = Some GL_INVALID_VALUE)
  /\ (buffer_store st'' 7 = Some (FloatData (1%R :: 2%R :: 3%R :: nil))
      /\ attrib_enabled (vertex_attribs st'' 1 1) = true
      /\ attrib_buffer (vertex_attribs st'' 1 1) = 0
      /\ error_flag st'' = Some GL_INVALID_OPERATION).
Proof.
  cbv zeta.
  assert (Hvao : vertex_array_binding (glBindVertexArray 1 (glGenVertexArrays 1 gl_initial_state))
                 <> 0%Z) by (cbn; lia).
  assert (Hmax : (16 < 2 ^ 31)%Z) by lia.
  assert (Hid : 7%Z <> 0%Z) by lia.
  split.
  - assert (Hint : (- 2 ^ 31 <= - 1 < 2 ^ 31)%Z) by lia.
    destruct (@createVertexBuffer_unchecked 16 Hmax 7 (- 1) 3 (1%R :: 2%R :: 3%R :: nil)
                (glBindVertexArray 1 (glGenVertexArrays 1 gl_initial_state))
                Hid Hvao eq_refl Hint)
      as [[_ [Hstore _]] [Hbad _]].
    destruct Hbad as [Hattr [_ Herr]]; [ left; lia | ].
    split; [ exact Hstore | split; [ exact Hattr | apply Herr; unfold GL_BGRA; lia ] ].
  - assert (Hint : (- 2 ^ 31 <= 1 < 2 ^ 31)%Z) by lia.
    destruct (@createVertexBuffer_unchecked 16 Hmax 7 1 GL_BGRA (1%R :: 2%R :: 3%R :: nil)
                (glBindVertexArray 1 (glGenVertexArrays 1 gl_initial_state))
                Hid Hvao eq_refl Hint)
      as [[_ [Hstore _]] [_ Hsize]].
    destruct Hsize as [Hattr Herr]; [ lia | right; unfold GL_BGRA; lia | ].
    split; [ exact Hstore | ].
    cbn [vertex_array_binding glBindVertexArray] in Hattr.
    split; [ | split ].
    + change (vertex_array_binding (glBindVertexArray 1 (glGenVertexArrays 1 gl_initial_state)))
        with 1%Z in Hattr.
      rewrite Hattr. reflexivity.
    + change (vertex_array_binding (glBindVertexArray 1 (glGenVertexArrays 1 gl_initial_state)))
        with 1%Z in Hattr.
      rewrite Hattr. reflexivity.
    + exact Herr.
Defined.

Lemma setup_buffers_result_witness :
  let st' := snd (setup_buffers 16 1 1 2 3 (1%R :: 2%R :: 3%R :: nil) (4%R :: 5%R :: 6%R :: nil)
                                (0 :: nil) gl_initial_state) in
  fst (setup_buffers 16 1 1 2 3 (1%R :: 2%R :: 3%R :: nil) (4%R :: 5%R :: 6%R :: nil)
                     (0 :: nil) gl_initial_state) = (1, 1, 2, 3)
  /\ vertex_array_binding st' = 0
  /\ vertex_attribs st' 1 0 =
       {| attrib_enabled := true; attrib_size := 3; attrib_normalized := false;
          attrib_stride := 0; attrib_pointer := 0; attrib_buffer := 1 |}
  /\ vertex_attribs st' 1 1 =
       {| attrib_enabled := true; attrib_size := 3; attrib_normalized := false;
          attrib_stride := 0; attrib_pointer := 0; attrib_buffer := 2 |}
  /\ element_array_buffer_binding st' 1 = 3
  /\ buffer_store st' 1 = Some (FloatData (1%R :: 2%R :: 3%R :: nil))
  /\ buffer_store st' 2 = Some (FloatData (4%R :: 5%R :: 6%R :: nil))
  /\ buffer_store st' 3 = Some (UIntData (0 :: nil))
  /\ array_buffer_binding st' = 2
  /\ error_flag st' = error_flag gl_initial_state.
Proof.
  apply (@setup_buffers_result 16); lia.
Defined.

(** The set-up runs: with attribute location 5 instead of 1 for the
    colours, attribute 1 stays disabled and attribute 5 reads buffer 2. *)
Example setup_like_run :
  let st := glBindVertexArray 1 (glGenVertexArrays 1 gl_initial_state) in
  let st := snd (createVertexBuffer 16 1 0 3 (1%R :: 2%R :: 3%R :: nil) st) in
  let st := snd (createVertexBuffer 16 2 5 3 (4%R :: 5%R :: 6%R :: nil) st) in
  let st := snd (createIndexBuffer 3 (0 :: nil) st) in
  attrib_enabled (vertex_attribs st 1 1) = false
  /\ attrib_buffer (vertex_attribs st 1 5) = 2
  /\ attrib_buffer (vertex_attribs st 1 0) = 1
  /\ element_array_buffer_binding st 1 = 3
  /\ error_flag st = None.
Proof. cbv zeta. repeat split. Qed.

End BufferHelperRuns.
